(** * Pricing and order life cycle of the e-commerce backend

    A shallow embedding of the coupon model ([models/coupon.js]), the order
    model ([models/order.js]), the stock methods of the product model
    ([models/product.js]) and the coupon and order controllers, followed by
    the properties established about them.

    Conventions of the embedding.
    - A JavaScript [Number] is the rational it denotes ([Q]); the counters
      and quantities the code only ever increments or copies are integers
      ([Z]).  The usage caps of a coupon are numbers a client supplies
      ([Q]).  [calculateDiscount] multiplies, divides and subtracts: there
      each operation is rounded to binary64 ([Js.fmul], [Js.fdiv],
      [Js.fsub]).  The totals of an order are exact sums and differences.
      Numeric statements use [==] ([Qeq]).
    - A [Date] is its epoch value in milliseconds ([Z]); every handler reads
      the clock once, the reading is the [now] of its environment.
    - An [ObjectId] is its hexadecimal string; [a.toString() === b.toString()]
      is [String.eqb].
    - A MongoDB collection is a finite map from its unique key to the stored
      document.  [save()] may reject: the environment of a request says which
      writes the storage layer refuses.
    - An [async] function is a computation in the monad [Store.M]: it threads
      the database and the log of side effects and may throw.  A request
      handler runs to completion before the next one starts. *)

From Stdlib Require Import ZArith QArith Qround Qminmax Qabs Lqa Lia Ascii String.
From stdpp Require Import gmap strings list pretty.

Abbreviation ObjectId := string.
Abbreviation Date := Z.

(** ** JavaScript primitives used by the code *)

Module Js.

(** The values the code tests for truthiness.  An object is represented by
    the names of its own properties: [ToBoolean] does not look inside. *)
Inductive Value :=
| Undefined
| Null
| Bool (b : bool)
| Number (q : Q)
| Str (s : string)
| Object (keys : list string).

Definition ToBoolean (v : Value) : bool :=
  match v with
  | Undefined | Null => false
  | Bool b => b
  | Number q => negb (Qeq_bool q 0)
  | Str s => negb (String.eqb s "")
  | Object _ => true
  end.

Definition ofOptionQ (o : option Q) : Value :=
  match o with Some q => Number q | None => Undefined end.

Definition ofOptionString (o : option string) : Value :=
  match o with Some s => Str s | None => Undefined end.

(** [x < y] on numbers. *)
Definition Qlt_bool (x y : Q) : bool := negb (Qle_bool y x).

(** Binary64 arithmetic.  [roundHalfEven x] is the integer nearest to [x],
    the even one on a tie; [exponentOf x] is the binary exponent of a
    positive [x]; [binary64 x] is the double nearest to [x], with 53
    significant bits and subnormals from 2^-1074.  Results beyond the
    largest finite double are not modelled. *)
Definition roundHalfEven (x : Q) : Z :=
  let q := Qfloor x in
  match ((x - inject_Z q) ?= 1 # 2)%Q with
  | Lt => q
  | Gt => (q + 1)%Z
  | Eq => if Z.even q then q else (q + 1)%Z
  end.

Definition exponentOf (x : Q) : Z :=
  let e := (Z.log2 (Qnum x) - Z.log2 (Zpos (Qden x)))%Z in
  if Qlt_bool x (2 ^ e)%Q then (e - 1)%Z else e.

Definition binary64 (x : Q) : Q :=
  if Qeq_bool x 0 then 0%Q
  else
    let a := Qabs x in
    let q := Z.max (exponentOf a - 52) (-1074) in
    let r := Qred (inject_Z (roundHalfEven (a / 2 ^ q)%Q) * 2 ^ q)%Q in
    if Qlt_bool x 0 then Qred (- r)%Q else r.

(** [a * b], [a / b] and [a - b] on numbers. *)
Definition fmul (a b : Q) : Q := binary64 (a * b).
Definition fdiv (a b : Q) : Q := binary64 (a / b).
Definition fsub (a b : Q) : Q := binary64 (a - b).

(** [String(n)] for an integer [n]. *)
Definition numberToString (n : Z) : string := pretty n.

(** [String.prototype.padStart(targetLength, padString)]: the pad string is
    repeated and truncated to fill the missing length. *)
Fixpoint cycle (n : nat) (rest pad : string) : string :=
  match n with
  | O => EmptyString
  | S n' =>
      match rest with
      | String ch r => String ch (cycle n' r pad)
      | EmptyString =>
          match pad with
          | String ch r => String ch (cycle n' r pad)
          | EmptyString => EmptyString
          end
      end
  end.

Definition padStart (targetLength : nat) (padString s : string) : string :=
  if (targetLength <=? String.length s)%nat then s
  else if String.eqb padString "" then s
  else cycle (targetLength - String.length s) padString padString +:+ s.

(** [String.prototype.toUpperCase] on ASCII letters. *)
Definition upperChar (ch : ascii) : ascii :=
  let n := nat_of_ascii ch in
  if ((97 <=? n) && (n <=? 122))%nat then ascii_of_nat (n - 32) else ch.

Fixpoint toUpperCase (s : string) : string :=
  match s with
  | EmptyString => EmptyString
  | String ch r => String (upperChar ch) (toUpperCase r)
  end.

End Js.

(** ** Errors thrown by the models

    One constructor per [throw new Error(...)] of the models, with the message
    of the source, plus the two failures of the runtime.
    - [PercentageOutOfRange]: 'Percentage discount value must be between 1 and 100'
    - [MaxDiscountRequired]: 'Max discount amount is required for percentage discount type'
    - [FixedTooSmall]: 'Fixed discount value must be greater than 0'
    - [ValidUntilNotAfterValidFrom]: 'validUntil must be after validfrom'
    - [CouponAlreadyExpired]: 'Coupon already expired'
    - [CannotCancelDelivered]: 'Cannot cancel delivered order'
    - [OnlyReturnDelivered]: 'Can only return delivered orders'
    - [ReturnPeriodExpired]: 'Return period has expired'
    - [VariantWithoutSku]: 'All variants must have a SKU when hasVariants is true'
    - [DuplicateSkus]: 'Duplicate SKUs found in variants'
    - [TypeError]: a property read on [undefined] or [null]
    - [SaveRejected]: [save()] rejected by the schema validators or the storage *)
Inductive Error :=
| PercentageOutOfRange
| MaxDiscountRequired
| FixedTooSmall
| ValidUntilNotAfterValidFrom
| CouponAlreadyExpired
| CannotCancelDelivered
| OnlyReturnDelivered
| ReturnPeriodExpired
| VariantWithoutSku
| DuplicateSkus
| TypeError
| SaveRejected.

(** ** The coupon model ([models/coupon.js]) *)

Module Coupon.

Inductive DiscountType := percentage | fixed.

(** One element of [userUsage[i].usageHistory]. *)
Record UsageEntry := {
  h_orderId : ObjectId;
  h_discountAmount : Q;
  h_usedAt : Date
}.

(** One element of [userUsage]. *)
Record UserUsage := {
  user : ObjectId;
  usedCount : Z;
  lastUsedAt : option Date;
  usageHistory : list UsageEntry
}.

(** The coupon document.  The two usage caps are numbers of the schema,
    without [min] or integer constraint.  [maxDiscountAmount] and [maxUsageLimit] have no
    default in the schema and may be absent. *)
Record t := {
  _id : ObjectId;
  code : string;
  discountType : DiscountType;
  discountValue : Q;
  maxDiscountAmount : option Q;
  minOrderValue : Q;
  maxUsageLimit : option Q;
  maxUsagePerUser : Q;
  validFrom : Date;
  validUntil : Date;
  isActive : bool;
  applicableCategories : list ObjectId;
  applicableProducts : list ObjectId;
  applicableUsers : list ObjectId;
  usageCount : Z;
  userUsage : list UserUsage;
  freeShipping : bool;
  excludedProducts : list ObjectId
}.

(** The [reason] strings of the model, one constructor per message:
    - [NotActive]: 'Coupon is not active'
    - [Expired]: 'Coupon has expired'
    - [NotYetValid]: 'Coupon not yet valid'
    - [UsageLimitReached]: 'Coupon usage limit reached'
    - [NotApplicableForYou]: 'This coupon is not applicable for you'
    - [AlreadyUsed n]: 'You have already used this coupon n time(s)'
    - [MinimumOrderValue m]: 'Minimum order value of (m) required'
    - [NoApplicableProducts]: 'No applicable products in cart'
    - [ExcludedItems]: 'Some items in cart cannot use this coupon' *)
Inductive Reason :=
| NotActive
| Expired
| NotYetValid
| UsageLimitReached
| NotApplicableForYou
| AlreadyUsed (n : Q)
| MinimumOrderValue (m : Q)
| NoApplicableProducts
| ExcludedItems.

(** [{ valid: true }] or [{ valid: false, reason }]. *)
Inductive Validation :=
| Valid
| Invalid (r : Reason).

Definition valid (v : Validation) : bool :=
  match v with Valid => true | Invalid _ => false end.

Definition reason (v : Validation) : option Reason :=
  match v with Valid => None | Invalid r => Some r end.

(** The validation result as the JavaScript object it is. *)
Definition toJs (v : Validation) : Js.Value :=
  match v with
  | Valid => Js.Object ["valid"]
  | Invalid _ => Js.Object ["valid"; "reason"]
  end.

(** [couponSchema.methods.isValid] *)
Definition isValid (now : Date) (c : t) : Validation :=
  if negb (isActive c) then Invalid NotActive
  else if (validUntil c <? now)%Z then Invalid Expired
  else if (now <? validFrom c)%Z then Invalid NotYetValid
  else if Js.ToBoolean (Js.ofOptionQ (maxUsageLimit c))
          && match maxUsageLimit c with
             | Some lim => Qle_bool lim (inject_Z (usageCount c))
             | None => false
             end
  then Invalid UsageLimitReached
  else Valid.

Definition byUser (userId : ObjectId) (u : UserUsage) : bool :=
  String.eqb (user u) userId.

(** [couponSchema.methods.canUserUse] *)
Definition canUserUse (now : Date) (userId : ObjectId) (c : t) : Validation :=
  match isValid now c with
  | Invalid r => Invalid r
  | Valid =>
      if (0 <? length (applicableUsers c))%nat
         && negb (existsb (fun id => String.eqb id userId) (applicableUsers c))
      then Invalid NotApplicableForYou
      else
        match List.find (byUser userId) (userUsage c) with
        | Some u =>
            if Qle_bool (maxUsagePerUser c) (inject_Z (usedCount u))
            then Invalid (AlreadyUsed (maxUsagePerUser c))
            else Valid
        | None => Valid
        end
  end.

(** A cart line as [calculateDiscount] reads it. *)
Record CartItem := {
  product : ObjectId;
  quantity : Z
}.

(** The successful result of [calculateDiscount]. *)
Record Discount := {
  r_discountAmount : Q;
  r_discountType : DiscountType;
  r_freeShipping : bool;
  r_originalTotal : Q;
  r_finalTotal : Q
}.

Inductive DiscountResult :=
| DiscountValid (d : Discount)
| DiscountInvalid (r : Reason).

Definition inList (ids : list ObjectId) (id : ObjectId) : bool :=
  existsb (fun p => String.eqb p id) ids.

(** The product gate of [calculateDiscount]: [None] when the cart passes. *)
Definition productGate (c : t) (cartItems : list CartItem) : option Reason :=
  if (0 <? length (applicableProducts c))%nat
     || (0 <? length (excludedProducts c))%nat
  then
    let cartProductIds := map product cartItems in
    if (0 <? length (applicableProducts c))%nat
       && negb (existsb (inList (applicableProducts c)) cartProductIds)
    then Some NoApplicableProducts
    else if (0 <? length (excludedProducts c))%nat
            && existsb (inList (excludedProducts c)) cartProductIds
    then Some ExcludedItems
    else None
  else None.

(** The amount computed once the gates are passed. *)
Definition discountAmountOf (c : t) (cartTotal : Q) : Q :=
  match discountType c with
  | percentage =>
      let discountAmount := Js.fdiv (Js.fmul cartTotal (discountValue c)) 100 in
      match maxDiscountAmount c with
      | Some cap => if Js.Qlt_bool cap discountAmount then cap else discountAmount
      | None => discountAmount
      end
  | fixed =>
      let discountAmount := discountValue c in
      if Js.Qlt_bool cartTotal discountAmount then cartTotal else discountAmount
  end.

(** [couponSchema.methods.calculateDiscount] *)
Definition calculateDiscount (c : t) (cartTotal : Q) (cartItems : list CartItem)
  : DiscountResult :=
  if Js.Qlt_bool cartTotal (minOrderValue c)
  then DiscountInvalid (MinimumOrderValue (minOrderValue c))
  else
    match productGate c cartItems with
    | Some r => DiscountInvalid r
    | None =>
        let discountAmount := discountAmountOf c cartTotal in
        DiscountValid {|
          r_discountAmount := discountAmount;
          r_discountType := discountType c;
          r_freeShipping := freeShipping c;
          r_originalTotal := cartTotal;
          r_finalTotal := Js.fsub cartTotal discountAmount
        |}
    end.

(** The body of [couponSchema.methods.applyCoupon] up to [this.save()]: the
    usage ledger is updated in memory.  The entry of the user is the first
    one [find] returns, a sub-document that is updated in place.  For a user
    without entry a literal is pushed first: [userUsage] is a Mongoose
    document array, whose [push] stores a cast copy, so the three updates
    that follow reach the literal and not the stored entry, which keeps the
    defaults of the schema. *)
Definition recordUse (now : Date) (orderId : ObjectId) (discountAmount : Q)
    (u : UserUsage) : UserUsage :=
  {| user := user u;
     usedCount := usedCount u + 1;
     lastUsedAt := Some now;
     usageHistory :=
       usageHistory u ++
       [{| h_orderId := orderId; h_discountAmount := discountAmount; h_usedAt := now |}] |}.

Fixpoint updateFirst (p : UserUsage -> bool) (f : UserUsage -> UserUsage)
    (l : list UserUsage) : list UserUsage :=
  match l with
  | [] => []
  | u :: r => if p u then f u :: r else u :: updateFirst p f r
  end.

Definition set_usage (c : t) (count : Z) (usage : list UserUsage) : t :=
  {| _id := _id c; code := code c; discountType := discountType c;
     discountValue := discountValue c; maxDiscountAmount := maxDiscountAmount c;
     minOrderValue := minOrderValue c; maxUsageLimit := maxUsageLimit c;
     maxUsagePerUser := maxUsagePerUser c; validFrom := validFrom c;
     validUntil := validUntil c; isActive := isActive c;
     applicableCategories := applicableCategories c;
     applicableProducts := applicableProducts c;
     applicableUsers := applicableUsers c;
     usageCount := count; userUsage := usage;
     freeShipping := freeShipping c; excludedProducts := excludedProducts c |}.

(** The literal [{ user: userId, usedCount: 0, usageHistory: [] }]; its cast
    copy has the same fields. *)
Definition newEntry (userId : ObjectId) : UserUsage :=
  {| user := userId; usedCount := 0; lastUsedAt := None; usageHistory := [] |}.

Definition trackUsage (now : Date) (userId orderId : ObjectId) (discountAmount : Q)
    (c : t) : t :=
  let usageCount' := (usageCount c + 1)%Z in
  match List.find (byUser userId) (userUsage c) with
  | Some _ =>
      set_usage c usageCount'
        (updateFirst (byUser userId) (recordUse now orderId discountAmount) (userUsage c))
  | None =>
      set_usage c usageCount' (userUsage c ++ [newEntry userId])
  end.

(** What [applyCoupon] returns, [{ globalUsage, userUsage }]: the new global
    count and the used-count of [userUsageData], the stored entry or the
    literal, after its update. *)
Definition usageReport (now : Date) (userId orderId : ObjectId) (discountAmount : Q)
    (c : t) : Z * Z :=
  ((usageCount c + 1)%Z,
   usedCount
     (recordUse now orderId discountAmount
        match List.find (byUser userId) (userUsage c) with
        | Some u => u
        | None => newEntry userId
        end)).



Inductive Status := inactive | expired | upcoming | active.

(** [couponSchema.methods.getStatus] *)
Definition getStatus (now : Date) (c : t) : Status :=
  if negb (isActive c) then inactive
  else if (validUntil c <? now)%Z then expired
  else if (now <? validFrom c)%Z then upcoming
  else if Js.ToBoolean (Js.ofOptionQ (maxUsageLimit c))
          && match maxUsageLimit c with
             | Some lim => Qle_bool lim (inject_Z (usageCount c))
             | None => false
             end
  then expired
  else active.

(** In [this.discountType < 1] the left operand is the string 'percentage'
    or 'fixed'; its numeric value is NaN and the comparison is false. *)
Definition discountTypeBelow1 (d : DiscountType) : bool := false.

(** [couponSchema.pre('save')]: [None] when the hook calls [next()]. *)
Definition preSave (now : Date) (c : t) : option Error :=
  let typeCheck :=
    match discountType c with
    | percentage =>
        if discountTypeBelow1 (discountType c) || Js.Qlt_bool 100 (discountValue c)
        then Some PercentageOutOfRange
        else if negb (Js.ToBoolean (Js.ofOptionQ (maxDiscountAmount c)))
        then Some MaxDiscountRequired
        else None
    | fixed =>
        if Js.Qlt_bool (discountValue c) 1 then Some FixedTooSmall else None
    end in
  match typeCheck with
  | Some e => Some e
  | None =>
      if (validUntil c <=? validFrom c)%Z then Some ValidUntilNotAfterValidFrom
      else if (validUntil c <=? now)%Z then Some CouponAlreadyExpired
      else None
  end.

End Coupon.

(** ** The stock methods of the product model ([models/product.js]) *)

Module Product.

Inductive ApprovalStatus := pending | approved | rejected.

Record Variant := {
  sku : option string;
  v_price : Q;
  v_stock : Z;
  isAvailable : bool
}.

(** The fields of the product document the order flow reads or writes. *)
Record t := {
  _id : ObjectId;
  category : ObjectId;
  seller : ObjectId;
  price : Q;
  stock : Z;
  hasVariants : bool;
  variants : list Variant;
  totalSold : Z;
  isActive : bool;
  isOutOfStock : bool;
  freeShipping : bool;
  shippingCharge : Q;
  approvalStatus : ApprovalStatus
}.

Definition set_stock (p : t) (n : Z) (vs : list Variant) (out : bool) : t :=
  {| _id := _id p; category := category p; seller := seller p; price := price p;
     stock := n; hasVariants := hasVariants p; variants := vs;
     totalSold := totalSold p; isActive := isActive p; isOutOfStock := out;
     freeShipping := freeShipping p; shippingCharge := shippingCharge p;
     approvalStatus := approvalStatus p |}.

(** [v.sku === variantSku] *)
Definition hasSku (variantSku : option string) (v : Variant) : bool :=
  match sku v, variantSku with
  | Some a, Some b => String.eqb a b
  | _, _ => false
  end.

Fixpoint updateFirst (p : Variant -> bool) (f : Variant -> Variant)
    (l : list Variant) : list Variant :=
  match l with
  | [] => []
  | v :: r => if p v then f v :: r else v :: updateFirst p f r
  end.

(** The body of [productSchema.methods.increaseStock] up to [this.save()]. *)
Definition restock (quantity : Z) (variantSku : option string) (p : t) : t :=
  if hasVariants p && Js.ToBoolean (Js.ofOptionString variantSku) then
    set_stock p (stock p)
      (updateFirst (hasSku variantSku)
         (fun v => {| sku := sku v; v_price := v_price v;
                      v_stock := v_stock v + quantity; isAvailable := true |})
         (variants p))
      (isOutOfStock p)
  else set_stock p (stock p + quantity) (variants p) (isOutOfStock p).

(** The body of [productSchema.methods.decreaseStock] up to [this.save()]. *)
Definition destock (quantity : Z) (variantSku : option string) (p : t) : t :=
  if hasVariants p && Js.ToBoolean (Js.ofOptionString variantSku) then
    set_stock p (stock p)
      (updateFirst (hasSku variantSku)
         (fun v => {| sku := sku v; v_price := v_price v;
                      v_stock := v_stock v - quantity;
                      isAvailable :=
                        if (v_stock v - quantity =? 0)%Z then false else isAvailable v |})
         (variants p))
      (isOutOfStock p)
  else set_stock p (stock p - quantity) (variants p) (isOutOfStock p).

Fixpoint distinct (l : list (option string)) : bool :=
  match l with
  | [] => true
  | x :: r =>
      negb (existsb (fun y => bool_decide (x = y)) r) && distinct r
  end.

(** The first [pre('save')] hook: every variant has a SKU, no SKU twice. *)
Definition skuHook (p : t) : option Error :=
  if hasVariants p && (0 <? length (variants p))%nat then
    let skus := map sku (variants p) in
    if existsb (fun s => negb (Js.ToBoolean (Js.ofOptionString s))) skus
    then Some VariantWithoutSku
    else if negb (distinct skus) then Some DuplicateSkus
    else None
  else None.

Definition totalStock (vs : list Variant) : Z :=
  fold_left (fun sum v => (sum + v_stock v)%Z) vs 0%Z.

(** The last [pre('save')] hook: the out-of-stock flag, and for a product
    with variants the stock as the sum over its variants.  The two hooks in
    between (slug, discount percentage) write fields not modelled here. *)
Definition stockHook (p : t) : t :=
  if hasVariants p then
    set_stock p (totalStock (variants p)) (variants p)
      (totalStock (variants p) =? 0)%Z
  else set_stock p (stock p) (variants p) (stock p =? 0)%Z.

(** [getAvailableVariants] *)
Definition getAvailableVariants (p : t) : list Variant :=
  List.filter (fun v => isAvailable v && (0 <? v_stock v)%Z) (variants p).

End Product.

(** ** The order model ([models/order.js]) *)

Module Order.

Inductive Status :=
| pending | confirmed | processing | shipped | delivered | cancelled | returned.

Inductive ReturnStatus := requested | approved | rejected | completed.

Definition status_eqb (a b : Status) : bool :=
  match a, b with
  | pending, pending | confirmed, confirmed | processing, processing
  | shipped, shipped | delivered, delivered | cancelled, cancelled
  | returned, returned => true
  | _, _ => false
  end.

(** A line item; the display snapshot (name, image, sku) is left out. *)
Record Item := {
  product : ObjectId;
  variantSku : option string;
  quantity : Z;
  price : Q;
  totalPrice : Q;
  seller : ObjectId
}.

(** The coupon snapshot stored on the order. *)
Record CouponSnapshot := {
  couponId : ObjectId;
  code : string;
  discountType : Coupon.DiscountType;
  discountAmount : Q;
  freeShipping : bool;
  appliedAt : Date
}.

Record HistoryEntry := {
  h_status : Status;
  h_updatedAt : Date;
  h_note : option string
}.

(** The fields of the order document used by the pricing and life-cycle
    code; addresses, payment and notes are left out. *)
Record t := {
  _id : ObjectId;
  orderId : option string;
  user : ObjectId;
  items : list Item;
  subtotal : Q;
  shippingCharge : Q;
  discount : Q;
  totalAmount : Q;
  orderStatus : Status;
  trackingNumber : option string;
  courier : option string;
  deliveredAt : option Date;
  isCancelled : bool;
  cancelledAt : option Date;
  cancellationReason : option string;
  isReturned : bool;
  returnRequestedAt : option Date;
  returnReason : option string;
  returnStatus : option ReturnStatus;
  statusHistory : list HistoryEntry;
  coupon : option CouponSnapshot;
  createdAt : Date
}.

(** Field updates, one per group of assignments of the source. *)
Definition set_orderId (o : t) (id : option string) : t :=
  {| _id := _id o; orderId := id; user := user o; items := items o;
     subtotal := subtotal o; shippingCharge := shippingCharge o;
     discount := discount o; totalAmount := totalAmount o;
     orderStatus := orderStatus o; trackingNumber := trackingNumber o;
     courier := courier o; deliveredAt := deliveredAt o;
     isCancelled := isCancelled o; cancelledAt := cancelledAt o;
     cancellationReason := cancellationReason o; isReturned := isReturned o;
     returnRequestedAt := returnRequestedAt o; returnReason := returnReason o;
     returnStatus := returnStatus o; statusHistory := statusHistory o;
     coupon := coupon o; createdAt := createdAt o |}.

Definition set_createdAt (o : t) (d : Date) : t :=
  {| _id := _id o; orderId := orderId o; user := user o; items := items o;
     subtotal := subtotal o; shippingCharge := shippingCharge o;
     discount := discount o; totalAmount := totalAmount o;
     orderStatus := orderStatus o; trackingNumber := trackingNumber o;
     courier := courier o; deliveredAt := deliveredAt o;
     isCancelled := isCancelled o; cancelledAt := cancelledAt o;
     cancellationReason := cancellationReason o; isReturned := isReturned o;
     returnRequestedAt := returnRequestedAt o; returnReason := returnReason o;
     returnStatus := returnStatus o; statusHistory := statusHistory o;
     coupon := coupon o; createdAt := d |}.

Definition set_statusHistory (o : t) (h : list HistoryEntry) : t :=
  {| _id := _id o; orderId := orderId o; user := user o; items := items o;
     subtotal := subtotal o; shippingCharge := shippingCharge o;
     discount := discount o; totalAmount := totalAmount o;
     orderStatus := orderStatus o; trackingNumber := trackingNumber o;
     courier := courier o; deliveredAt := deliveredAt o;
     isCancelled := isCancelled o; cancelledAt := cancelledAt o;
     cancellationReason := cancellationReason o; isReturned := isReturned o;
     returnRequestedAt := returnRequestedAt o; returnReason := returnReason o;
     returnStatus := returnStatus o; statusHistory := h;
     coupon := coupon o; createdAt := createdAt o |}.

Definition set_status (o : t) (s : Status) (deliv : option Date) : t :=
  {| _id := _id o; orderId := orderId o; user := user o; items := items o;
     subtotal := subtotal o; shippingCharge := shippingCharge o;
     discount := discount o; totalAmount := totalAmount o;
     orderStatus := s; trackingNumber := trackingNumber o;
     courier := courier o; deliveredAt := deliv;
     isCancelled := isCancelled o; cancelledAt := cancelledAt o;
     cancellationReason := cancellationReason o; isReturned := isReturned o;
     returnRequestedAt := returnRequestedAt o; returnReason := returnReason o;
     returnStatus := returnStatus o; statusHistory := statusHistory o;
     coupon := coupon o; createdAt := createdAt o |}.

Definition set_tracking (o : t) (tn cr : option string) : t :=
  {| _id := _id o; orderId := orderId o; user := user o; items := items o;
     subtotal := subtotal o; shippingCharge := shippingCharge o;
     discount := discount o; totalAmount := totalAmount o;
     orderStatus := orderStatus o; trackingNumber := tn;
     courier := cr; deliveredAt := deliveredAt o;
     isCancelled := isCancelled o; cancelledAt := cancelledAt o;
     cancellationReason := cancellationReason o; isReturned := isReturned o;
     returnRequestedAt := returnRequestedAt o; returnReason := returnReason o;
     returnStatus := returnStatus o; statusHistory := statusHistory o;
     coupon := coupon o; createdAt := createdAt o |}.

(** The four assignments at the head of [cancelOrder]. *)
Definition markCancelled (now : Date) (reason : option string) (o : t) : t :=
  {| _id := _id o; orderId := orderId o; user := user o; items := items o;
     subtotal := subtotal o; shippingCharge := shippingCharge o;
     discount := discount o; totalAmount := totalAmount o;
     orderStatus := cancelled; trackingNumber := trackingNumber o;
     courier := courier o; deliveredAt := deliveredAt o;
     isCancelled := true; cancelledAt := Some now;
     cancellationReason := reason; isReturned := isReturned o;
     returnRequestedAt := returnRequestedAt o; returnReason := returnReason o;
     returnStatus := returnStatus o; statusHistory := statusHistory o;
     coupon := coupon o; createdAt := createdAt o |}.

(** The four assignments at the end of [requestReturn]. *)
Definition markReturnRequested (now : Date) (reason : option string) (o : t) : t :=
  {| _id := _id o; orderId := orderId o; user := user o; items := items o;
     subtotal := subtotal o; shippingCharge := shippingCharge o;
     discount := discount o; totalAmount := totalAmount o;
     orderStatus := orderStatus o; trackingNumber := trackingNumber o;
     courier := courier o; deliveredAt := deliveredAt o;
     isCancelled := isCancelled o; cancelledAt := cancelledAt o;
     cancellationReason := cancellationReason o; isReturned := true;
     returnRequestedAt := Some now; returnReason := reason;
     returnStatus := Some requested; statusHistory := statusHistory o;
     coupon := coupon o; createdAt := createdAt o |}.

(** [order.coupon = ...; order.totalAmount = ...] of the coupon controller. *)
Definition set_coupon_total (o : t) (c : option CouponSnapshot) (total : Q) : t :=
  {| _id := _id o; orderId := orderId o; user := user o; items := items o;
     subtotal := subtotal o; shippingCharge := shippingCharge o;
     discount := discount o; totalAmount := total;
     orderStatus := orderStatus o; trackingNumber := trackingNumber o;
     courier := courier o; deliveredAt := deliveredAt o;
     isCancelled := isCancelled o; cancelledAt := cancelledAt o;
     cancellationReason := cancellationReason o; isReturned := isReturned o;
     returnRequestedAt := returnRequestedAt o; returnReason := returnReason o;
     returnStatus := returnStatus o; statusHistory := statusHistory o;
     coupon := c; createdAt := createdAt o |}.





End Order.

(** ** The cart model ([models/cart.js]) *)

Module Cart.

Record Item := {
  product : ObjectId;
  quantity : Z;
  variantSku : option string;
  price : Q;
  totalPrice : Q
}.

(** A cart belongs to a user or, for a guest, to a session. *)
Record t := {
  _id : ObjectId;
  user : option ObjectId;
  sessionId : option string;
  items : list Item;
  totalItems : Z;
  subtotal : Q
}.

Definition set_items (c : t) (l : list Item) : t :=
  {| _id := _id c; user := user c; sessionId := sessionId c; items := l;
     totalItems := totalItems c; subtotal := subtotal c |}.

(** [cartSchema.pre('save')]: the two summary fields. *)
Definition preSave (c : t) : t :=
  {| _id := _id c; user := user c; sessionId := sessionId c; items := items c;
     totalItems := fold_left (fun sum item => (sum + quantity item)%Z) (items c) 0%Z;
     subtotal := fold_left (fun sum item => (sum + totalPrice item)%Q) (items c) 0%Q |}.

(** [a === b] on the variant SKU of an item ([null] when absent). *)
Definition sameSku (a b : option string) : bool := bool_decide (a = b).

(** The predicate the three item methods search with. *)
Definition matches (productId : ObjectId) (sku : option string)
    (item : Item) : bool :=
  if Js.ToBoolean (Js.ofOptionString sku)
  then String.eqb (product item) productId && sameSku (variantSku item) sku
  else String.eqb (product item) productId.

Fixpoint updateFirst (p : Item -> bool) (f : Item -> Item) (l : list Item)
  : list Item :=
  match l with
  | [] => []
  | i :: r => if p i then f i :: r else i :: updateFirst p f r
  end.

(** The unit price [addItem] charges: the price of the variant when the
    product has variants and the SKU names one, else the product price. *)
Definition unitPrice (p : Product.t) (sku : option string) : Q :=
  if Js.ToBoolean (Js.ofOptionString sku) && Product.hasVariants p then
    match List.find (Product.hasSku sku) (Product.variants p) with
    | Some v => Product.v_price v
    | None => Product.price p
    end
  else Product.price p.

(** The body of [cartSchema.methods.addItem] up to [this.save()]. *)
Definition addItem (p : Product.t) (qty : Z) (sku : option string)
    (c : t) : t :=
  let price := unitPrice p sku in
  match List.find (matches (Product._id p) sku) (items c) with
  | Some _ =>
      set_items c
        (updateFirst (matches (Product._id p) sku)
           (fun item =>
              {| product := product item; quantity := quantity item + qty;
                 variantSku := variantSku item; price := Cart.price item;
                 totalPrice := (inject_Z (quantity item + qty) * price)%Q |})
           (items c))
  | None =>
      set_items c
        (items c ++
         [{| product := Product._id p; quantity := qty; variantSku := sku;
             price := price; totalPrice := (price * inject_Z qty)%Q |}])
  end.


(** The body of [cartSchema.methods.removeItem] up to [this.save()]. *)
Definition removeItem (productId : ObjectId) (sku : option string)
    (c : t) : t :=
  set_items c
    (List.filter
       (fun item =>
          if Js.ToBoolean (Js.ofOptionString sku)
          then negb (String.eqb (product item) productId
                     && sameSku (variantSku item) sku)
          else negb (String.eqb (product item) productId))
       (items c)).

(** The body of [cartSchema.methods.clearCart] up to [this.save()]. *)
Definition clearCart (c : t) : t := set_items c [].

End Cart.

(** ** The host: clock, local calendar, environment, storage faults *)

(** What [Date] offers for the local time zone of the host: the calendar
    fields of an instant and the instant of the preceding local midnight
    ([setHours(0, 0, 0, 0)]). *)
Record Calendar := {
  getFullYear : Date -> Z;
  getMonth : Date -> Z;
  getDate : Date -> Z;
  startOfDay : Date -> Date
}.

(** The calendar of a host running in UTC (proleptic Gregorian calendar). *)
Module Utc.

Definition msPerDay : Z := 1000 * 60 * 60 * 24.

Definition civil (now : Date) : Z * Z * Z :=
  let z := (now / msPerDay + 719468)%Z in
  let era := (z / 146097)%Z in
  let doe := (z - era * 146097)%Z in
  let yoe := ((doe - doe / 1460 + doe / 36524 - doe / 146096) / 365)%Z in
  let doy := (doe - (365 * yoe + yoe / 4 - yoe / 100))%Z in
  let mp := ((5 * doy + 2) / 153)%Z in
  let d := (doy - (153 * mp + 2) / 5 + 1)%Z in
  let m := (if (mp <? 10)%Z then mp + 3 else mp - 9)%Z in
  let y := (yoe + era * 400 + (if (m <=? 2)%Z then 1 else 0))%Z in
  (y, m, d).

Definition calendar : Calendar := {|
  getFullYear := fun now => (civil now).1.1;
  getMonth := fun now => ((civil now).1.2 - 1)%Z;
  getDate := fun now => (civil now).2;
  startOfDay := fun now => (now / msPerDay * msPerDay)%Z
|}.

End Utc.

(** The environment of one request. *)
Record Env := {
  now : Date;
  calendar : Calendar;
  ORDER_ID_PREFIX : option string;
  orderSaveRejected : bool;
  couponSaveRejected : bool;
  productSaveRejected : ObjectId -> bool;
  cartSaveRejected : bool
}.

(** ** The database and the monad of [async] code *)

Module Store.

(** The side effects a handler leaves behind, in the order they happen. *)
Inductive Event :=
| OrderSaved (o : Order.t)
| CouponSaved (c : Coupon.t)
| ProductSaved (p : Product.t)
| IncreaseStock (productId : ObjectId) (quantity : Z) (variantSku : option string)
| DecreaseStock (productId : ObjectId) (quantity : Z) (variantSku : option string)
| IncrementSold (productId : ObjectId) (quantity : Z)
| CartSaved (c : Cart.t)
| CartDeleted (id : ObjectId).

(** The collections: orders and products by [_id], coupons by their unique
    [code], carts in their natural order. *)
Record World := {
  orders : gmap ObjectId Order.t;
  coupons : gmap string Coupon.t;
  products : gmap ObjectId Product.t;
  carts : list Cart.t;
  log : list Event
}.

Inductive Result (A : Type) :=
| Ok (a : A)
| Throw (e : Error).
Arguments Ok {A} a.
Arguments Throw {A} e.

Definition M (A : Type) : Type := World -> Result A * World.

Definition ret {A} (a : A) : M A := fun w => (Ok a, w).

Definition throw {A} (e : Error) : M A := fun w => (Throw e, w).

Definition bind {A B} (m : M A) (k : A -> M B) : M B :=
  fun w =>
    match m w with
    | (Ok a, w') => k a w'
    | (Throw e, w') => (Throw e, w')
    end.

(** [try { ... } catch (error) { h(error) }] *)
Definition catch {A} (m : M A) (h : Error -> M A) : M A :=
  fun w =>
    match m w with
    | (Ok a, w') => (Ok a, w')
    | (Throw e, w') => h e w'
    end.

Definition emit (e : Event) : M unit :=
  fun w =>
    (Ok tt,
     {| orders := orders w; coupons := coupons w; products := products w;
        carts := carts w; log := log w ++ [e] |}).

Definition putOrder (o : Order.t) : M unit :=
  fun w =>
    (Ok tt,
     {| orders := <[Order._id o := o]> (orders w); coupons := coupons w;
        products := products w; carts := carts w;
        log := log w ++ [OrderSaved o] |}).

Definition putCoupon (c : Coupon.t) : M unit :=
  fun w =>
    (Ok tt,
     {| orders := orders w; coupons := <[Coupon.code c := c]> (coupons w);
        products := products w; carts := carts w;
        log := log w ++ [CouponSaved c] |}).

Definition putProduct (p : Product.t) : M unit :=
  fun w =>
    (Ok tt,
     {| orders := orders w; coupons := coupons w;
        products := <[Product._id p := p]> (products w);
        carts := carts w;
        log := log w ++ [ProductSaved p] |}).

(** [for (const x of l) { await body(x) }] *)
Fixpoint forEach {A} (body : A -> M unit) (l : list A) : M unit :=
  match l with
  | [] => ret tt
  | x :: r => bind (body x) (fun _ => forEach body r)
  end.

End Store.

Notation "'let*' x ':=' m 'in' k" := (Store.bind m (fun x => k))
  (at level 10, x name, m at level 100, k at level 200).
Notation "m ';;' k" := (Store.bind m (fun _ => k))
  (at level 100, k at level 200, right associativity).

(** ** Model methods that touch the database *)

Module ProductModel.
Import Store.

(** [Product.findById] *)
Definition findById (id : ObjectId) : M (option Product.t) :=
  fun w =>
    (Ok match products w !! id with
        | Some p => if String.eqb (Product._id p) id then Some p else None
        | None => None
        end, w).

(** [product.save()]: the hooks, then the write. *)
Definition save (env : Env) (p : Product.t) : M unit :=
  match Product.skuHook p with
  | Some e => throw e
  | None =>
      if productSaveRejected env (Product._id p) then throw SaveRejected
      else putProduct (Product.stockHook p)
  end.

(** [productSchema.methods.increaseStock] *)
Definition increaseStock (env : Env) (quantity : Z) (variantSku : option string)
    (p : Product.t) : M unit :=
  emit (IncreaseStock (Product._id p) quantity variantSku) ;;
  save env (Product.restock quantity variantSku p).


(** [Product.findByIdAndUpdate(id, { $inc: { totalSold: quantity } })]:
    an update in place, without hooks; nothing happens for a missing id. *)
Definition incrementSold (id : ObjectId) (quantity : Z) : M unit :=
  fun w =>
    let w' :=
      {| orders := orders w; coupons := coupons w;
         products :=
           match products w !! id with
           | Some p =>
               <[id :=
                  {| Product._id := Product._id p;
                     Product.category := Product.category p;
                     Product.seller := Product.seller p;
                     Product.price := Product.price p;
                     Product.stock := Product.stock p;
                     Product.hasVariants := Product.hasVariants p;
                     Product.variants := Product.variants p;
                     Product.totalSold := Product.totalSold p + quantity;
                     Product.isActive := Product.isActive p;
                     Product.isOutOfStock := Product.isOutOfStock p;
                     Product.freeShipping := Product.freeShipping p;
                     Product.shippingCharge := Product.shippingCharge p;
                     Product.approvalStatus := Product.approvalStatus p |}]>
                 (products w)
           | None => products w
           end;
         carts := carts w;
         log := log w ++ [IncrementSold id quantity] |} in
    (Ok tt, w').

End ProductModel.

Module OrderModel.
Import Store.

(** [Order.findById] *)
Definition findById (id : ObjectId) : M (option Order.t) :=
  fun w =>
    (Ok match orders w !! id with
        | Some o => if String.eqb (Order._id o) id then Some o else None
        | None => None
        end, w).

(** [countDocuments({ createdAt: { $gte: startOfDay } })] *)
Definition countSince (start : Date) (w : World) : Z :=
  Z.of_nat
    (length (List.filter (fun kv => (start <=? Order.createdAt kv.2)%Z)
               (map_to_list (orders w)))).

Definition pad2 (n : Z) : string := Js.padStart 2 "0" (Js.numberToString n).
Definition pad4 (n : Z) : string := Js.padStart 4 "0" (Js.numberToString n).

Definition prefix (env : Env) : string :=
  match ORDER_ID_PREFIX env with
  | Some s => if Js.ToBoolean (Js.Str s) then s else "ORD"
  | None => "ORD"
  end.

(** The identifier the hook derives at instant [date] from [count]. *)
Definition generatedId (env : Env) (count : Z) : string :=
  let date := now env in
  let year := Js.numberToString (getFullYear (calendar env) date) in
  let month := pad2 (getMonth (calendar env) date + 1) in
  let day := pad2 (getDate (calendar env) date) in
  let sequence := pad4 (count + 1) in
  prefix env +:+ year +:+ month +:+ day +:+ sequence.

(** [orderSchema.pre('validate')]: the order identifier is derived when the
    document has none. *)
Definition assignOrderId (env : Env) (w : World) (o : Order.t) : Order.t :=
  if negb (Js.ToBoolean (Js.ofOptionString (Order.orderId o))) then
    let count := countSince (startOfDay (calendar env) (now env)) w in
    Order.set_orderId o (Some (generatedId env count))
  else o.

Definition preValidate (env : Env) (o : Order.t) : M Order.t :=
  fun w => (Ok (assignOrderId env w o), w).

(** [this.isModified('orderStatus')]: the document is new or its status
    differs from the stored one. *)
Definition isModifiedStatus (o : Order.t) (w : World) : bool :=
  match orders w !! Order._id o with
  | Some old => negb (Order.status_eqb (Order.orderStatus old) (Order.orderStatus o))
  | None => true
  end.

(** [orderSchema.pre('save')]: a changed status is appended to the status
    history. *)
Definition appendHistory (env : Env) (w : World) (o : Order.t) : Order.t :=
  if isModifiedStatus o w then
    Order.set_statusHistory o
      (Order.statusHistory o ++
       [{| Order.h_status := Order.orderStatus o;
           Order.h_updatedAt := now env;
           Order.h_note := None |}])
  else o.

Definition preSave (env : Env) (o : Order.t) : M Order.t :=
  fun w => (Ok (appendHistory env w o), w).

Definition isNew (o : Order.t) : M bool :=
  fun w => (Ok (negb (bool_decide (is_Some (orders w !! Order._id o)))), w).

(** [order.save()]: both hooks, the creation timestamp of a new document,
    then the write. *)
Definition save (env : Env) (o : Order.t) : M Order.t :=
  let* o1 := preValidate env o in
  let* o2 := preSave env o1 in
  if orderSaveRejected env then throw SaveRejected
  else
    let* fresh := isNew o2 in
    let o3 := if fresh then Order.set_createdAt o2 (now env) else o2 in
    putOrder o3 ;;
    ret o3.

(** The body of the loop of [cancelOrder]: the stock of a line item is
    restored when its product is found. *)
Definition restoreStock (env : Env) (item : Order.Item) : M unit :=
  let* product := ProductModel.findById (Order.product item) in
  match product with
  | Some p =>
      ProductModel.increaseStock env (Order.quantity item) (Order.variantSku item) p
  | None => ret tt
  end.

(** [orderSchema.methods.cancelOrder] *)
Definition cancelOrder (env : Env) (reason : option string) (o : Order.t)
  : M Order.t :=
  if Order.status_eqb (Order.orderStatus o) Order.delivered
  then throw CannotCancelDelivered
  else
    let o' := Order.markCancelled (now env) reason o in
    forEach (restoreStock env) (Order.items o') ;;
    save env o'.

(** [orderSchema.methods.updateStatus] *)
Definition updateStatus (env : Env) (newStatus : Order.Status)
    (note : string) (o : Order.t) : M Order.t :=
  let delivered := Order.status_eqb newStatus Order.delivered in
  let o1 :=
    Order.set_status o newStatus
      (if delivered then Some (now env) else Order.deliveredAt o) in
  (if delivered then
     forEach
       (fun item =>
          ProductModel.incrementSold (Order.product item) (Order.quantity item))
       (Order.items o1)
   else ret tt) ;;
  let o2 :=
    Order.set_statusHistory o1
      (Order.statusHistory o1 ++
       [{| Order.h_status := newStatus; Order.h_updatedAt := now env;
           Order.h_note := Some note |}]) in
  save env o2.

Definition msPerDay : Z := 1000 * 60 * 60 * 24.

(** [orderSchema.methods.requestReturn] *)
Definition requestReturn (env : Env) (reason : option string) (o : Order.t)
  : M Order.t :=
  if negb (Order.status_eqb (Order.orderStatus o) Order.delivered)
  then throw OnlyReturnDelivered
  else
    match Order.deliveredAt o with
    | None => throw TypeError
    | Some deliveredAt =>
        let daysSinceDelivery := ((now env - deliveredAt) / msPerDay)%Z in
        if (7 <? daysSinceDelivery)%Z then throw ReturnPeriodExpired
        else save env (Order.markReturnRequested (now env) reason o)
    end.

End OrderModel.

Module CouponModel.
Import Store.

(** [coupon.save()]: the hook, then the write. *)
Definition save (env : Env) (c : Coupon.t) : M unit :=
  match Coupon.preSave (now env) c with
  | Some e => throw e
  | None =>
      if couponSaveRejected env then throw SaveRejected
      else putCoupon c
  end.

(** [couponSchema.methods.applyCoupon] *)
Definition applyCoupon (env : Env) (userId orderId : ObjectId)
    (discountAmount : Q) (c : Coupon.t) : M (Z * Z) :=
  let c' := Coupon.trackUsage (now env) userId orderId discountAmount c in
  save env c' ;;
  ret (Coupon.usageReport (now env) userId orderId discountAmount c).

(** The filter shared by [findValidCoupon] and [getActiveCoupons]. *)
Definition usableNow (now : Date) (c : Coupon.t) : bool :=
  Coupon.isActive c && (now <? Coupon.validUntil c)%Z
  && (Coupon.validFrom c <=? now)%Z.

(** [couponSchema.statics.findValidCoupon] *)
Definition findValidCoupon (env : Env) (code : string) : M (option Coupon.t) :=
  fun w =>
    let key := Js.toUpperCase code in
    (Ok match coupons w !! key with
        | Some c =>
            if String.eqb (Coupon.code c) key && usableNow (now env) c
            then Some c else None
        | None => None
        end, w).

End CouponModel.

Module CartModel.
Import Store.

Fixpoint upsert (c : Cart.t) (l : list Cart.t) : list Cart.t :=
  match l with
  | [] => [c]
  | x :: r =>
      if String.eqb (Cart._id x) (Cart._id c) then c :: r else x :: upsert c r
  end.

(** [cart.save()]: the hook, then the write. *)
Definition save (env : Env) (c : Cart.t) : M Cart.t :=
  if cartSaveRejected env then throw SaveRejected
  else
    fun w =>
      let c' := Cart.preSave c in
      (Ok c',
       {| orders := orders w; coupons := coupons w; products := products w;
          carts := upsert c' (carts w); log := log w ++ [CartSaved c'] |}).

(** [Cart.findOne({ user: userId })] *)
Definition findOneByUser (userId : ObjectId) : M (option Cart.t) :=
  fun w =>
    (Ok (List.find (fun c => bool_decide (Cart.user c = Some userId)) (carts w)), w).

(** [Cart.findOne({ sessionId })] *)
Definition findOneBySession (sessionId : string) : M (option Cart.t) :=
  fun w =>
    (Ok (List.find (fun c => bool_decide (Cart.sessionId c = Some sessionId))
           (carts w)), w).

(** [Cart.deleteOne({ _id: id })] *)
Definition deleteOne (id : ObjectId) : M unit :=
  fun w =>
    (Ok tt,
     {| orders := orders w; coupons := coupons w; products := products w;
        carts := List.filter (fun c => negb (String.eqb (Cart._id c) id)) (carts w);
        log := log w ++ [CartDeleted id] |}).

(** The merge loop of [mergeGuestCart]: a guest item joins the first user
    item with the same product and variant, or is appended. *)
Definition sameLine (guestItem item : Cart.Item) : bool :=
  String.eqb (Cart.product item) (Cart.product guestItem)
  && Cart.sameSku (Cart.variantSku item) (Cart.variantSku guestItem).

Definition mergeItem (userItems : list Cart.Item) (guestItem : Cart.Item)
  : list Cart.Item :=
  match List.find (sameLine guestItem) userItems with
  | Some _ =>
      Cart.updateFirst (sameLine guestItem)
        (fun item =>
           {| Cart.product := Cart.product item;
              Cart.quantity := Cart.quantity item + Cart.quantity guestItem;
              Cart.variantSku := Cart.variantSku item;
              Cart.price := Cart.price item;
              Cart.totalPrice :=
                (inject_Z (Cart.quantity item + Cart.quantity guestItem)
                 * Cart.price item)%Q |})
        userItems
  | None => userItems ++ [guestItem]
  end.

(** [cartSchema.statics.mergeGuestCart] *)
Definition mergeGuestCart (env : Env) (sessionId : string) (userId : ObjectId)
  : M (option Cart.t) :=
  let* guestCart := findOneBySession sessionId in
  let* userCart := findOneByUser userId in
  match guestCart with
  | None => ret userCart
  | Some guest =>
      match userCart with
      | None =>
          let* saved :=
            save env
              {| Cart._id := Cart._id guest; Cart.user := Some userId;
                 Cart.sessionId := None; Cart.items := Cart.items guest;
                 Cart.totalItems := Cart.totalItems guest;
                 Cart.subtotal := Cart.subtotal guest |} in
          ret (Some saved)
      | Some userC =>
          let merged :=
            Cart.set_items userC
              (fold_left mergeItem (Cart.items guest) (Cart.items userC)) in
          let* saved := save env merged in
          deleteOne (Cart._id guest) ;;
          ret (Some saved)
      end
  end.

(** [cart.clearCart()] *)
Definition clearCart (env : Env) (c : Cart.t) : M Cart.t :=
  save env (Cart.clearCart c).

End CartModel.

(** ** HTTP responses *)

(** The [message] of a failure response.  [Text] carries a literal of the
    source; the other constructors are its template strings. *)
Inductive Message :=
| Text (s : string)
| ReasonOf (r : option Coupon.Reason)
| CannotCancel (s : Order.Status)
| ProductNotAvailable (id : ObjectId)
| VariantNotAvailable (sku : option string)
| OnlyUnitsAvailable (n : Z) (product : ObjectId).

Record ValidateData := {
  vd_couponId : ObjectId;
  vd_couponCode : string;
  vd_discountType : Coupon.DiscountType;
  vd_discountAmount : Q;
  vd_freeShipping : bool;
  vd_originalTotal : Q;
  vd_finalTotal : Q;
  vd_savings : Q
}.

Record ApplyData := {
  ad_coupon : Order.CouponSnapshot;
  ad_subtotal : Q;
  ad_discountAmount : Q;
  ad_shippingCharge : Q;
  ad_totalAmount : Q
}.

Record RemoveData := {
  rd_subtotal : Q;
  rd_shippingCharge : Q;
  rd_totalAmount : Q;
  rd_previousDiscount : option Q
}.

Inductive Payload :=
| Validated (d : ValidateData)
| Applied (d : ApplyData)
| Removed (d : RemoveData)
| OrderData (o : Order.t).

(** [res.status(s).json({ success: false, message })],
    [res.status(s).json({ success: true, message, data })] and
    [next(error)]. *)
Inductive Response :=
| Failure (status : Z) (message : Message)
| Success (status : Z) (message : string) (data : Payload)
| Next (e : Error).

(** ** The coupon controller *)

Module CouponController.
Import Store.

(** [validateCoupon]: POST /api/coupons/validate *)
Definition validateCoupon (env : Env) (userId : ObjectId) (code : option string)
    (cartTotal : Q) (cartItems : option (list Coupon.CartItem)) : M Response :=
  catch
    (if negb (Js.ToBoolean (Js.ofOptionString code))
     then ret (Failure 400 (Text "Coupon code is required"))
     else if Qle_bool cartTotal 0
     then ret (Failure 400 (Text "Cart total must be greater than 0"))
     else
       let* coupon := CouponModel.findValidCoupon env (default "" code) in
       match coupon with
       | None => ret (Failure 404 (Text "Invalid coupon code"))
       | Some coupon =>
           let userValidation := Coupon.canUserUse (now env) userId coupon in
           if negb (Js.ToBoolean (Coupon.toJs userValidation))
           then ret (Failure 400 (ReasonOf (Coupon.reason userValidation)))
           else
             match Coupon.calculateDiscount coupon cartTotal (default [] cartItems) with
             | Coupon.DiscountInvalid r => ret (Failure 400 (ReasonOf (Some r)))
             | Coupon.DiscountValid d =>
                 ret (Success 200 "Coupon is valid"
                        (Validated
                           {| vd_couponId := Coupon._id coupon;
                              vd_couponCode := Coupon.code coupon;
                              vd_discountType := Coupon.r_discountType d;
                              vd_discountAmount := Coupon.r_discountAmount d;
                              vd_freeShipping := Coupon.r_freeShipping d;
                              vd_originalTotal := Coupon.r_originalTotal d;
                              vd_finalTotal := Coupon.r_finalTotal d;
                              vd_savings := Coupon.r_discountAmount d |}))
             end
       end)
    (fun e => ret (Next e)).

(** [populate('items.product')] followed by
    [order.items.map(item => ({ product: item.product._id, ... }))]:
    a line whose product no longer exists is populated with [null]. *)
Fixpoint cartItemsOf (items : list Order.Item) : M (list Coupon.CartItem) :=
  match items with
  | [] => ret []
  | item :: r =>
      let* product := ProductModel.findById (Order.product item) in
      match product with
      | None => throw TypeError
      | Some p =>
          let* rest := cartItemsOf r in
          ret ({| Coupon.product := Product._id p;
                  Coupon.quantity := Order.quantity item |} :: rest)
      end
  end.

(** [applyCoupon]: POST /api/coupons/apply *)
Definition applyCoupon (env : Env) (userId : ObjectId)
    (couponCode orderId : option string) : M Response :=
  catch
    (if negb (Js.ToBoolean (Js.ofOptionString couponCode))
        || negb (Js.ToBoolean (Js.ofOptionString orderId))
     then ret (Failure 400 (Text "Coupon code and order ID are required"))
     else
       let* order := OrderModel.findById (default "" orderId) in
       match order with
       | None => ret (Failure 404 (Text "Order not found"))
       | Some order =>
           if negb (String.eqb (Order.user order) userId)
           then ret (Failure 403 (Text "Not authorized"))
           else
             let* coupon := CouponModel.findValidCoupon env (default "" couponCode) in
             match coupon with
             | None => ret (Failure 404 (Text "Invalid coupon code or expired coupon"))
             | Some coupon =>
                 let userValidation := Coupon.canUserUse (now env) userId coupon in
                 if negb (Coupon.valid userValidation)
                 then ret (Failure 400 (ReasonOf (Coupon.reason userValidation)))
                 else
                   let* cartItems := cartItemsOf (Order.items order) in
                   match Coupon.calculateDiscount coupon (Order.subtotal order) cartItems with
                   | Coupon.DiscountInvalid r => ret (Failure 400 (ReasonOf (Some r)))
                   | Coupon.DiscountValid d =>
                       let snapshot :=
                         {| Order.couponId := Coupon._id coupon;
                            Order.code := Coupon.code coupon;
                            Order.discountType := Coupon.discountType coupon;
                            Order.discountAmount := Coupon.r_discountAmount d;
                            Order.freeShipping := Coupon.r_freeShipping d;
                            Order.appliedAt := now env |} in
                       let shippingCharge :=
                         if Coupon.r_freeShipping d then 0%Q
                         else Order.shippingCharge order in
                       let order' :=
                         Order.set_coupon_total order (Some snapshot)
                           (Order.subtotal order - Coupon.r_discountAmount d
                            + shippingCharge)%Q in
                       let* saved := OrderModel.save env order' in
                       CouponModel.applyCoupon env userId (default "" orderId)
                         (Coupon.r_discountAmount d) coupon ;;
                       ret (Success 200 "Coupon applied successfully"
                              (Applied
                                 {| ad_coupon := snapshot;
                                    ad_subtotal := Order.subtotal saved;
                                    ad_discountAmount := Coupon.r_discountAmount d;
                                    ad_shippingCharge := shippingCharge;
                                    ad_totalAmount := Order.totalAmount saved |}))
                   end
             end
       end)
    (fun e => ret (Next e)).


End CouponController.

(** ** The order controller *)

Module OrderController.
Import Store.


(** What the first loop of [createOrder] accumulates. *)
Record Totals := {
  subtotal : Q;
  shippingCharge : Q;
  orderItems : list Order.Item
}.



(** The document handed to [Order.create]; the unset fields take the
    defaults of the schema. *)
Definition newOrder (newId userId : ObjectId) (t : Totals) : Order.t :=
  {| Order._id := newId; Order.orderId := None; Order.user := userId;
     Order.items := orderItems t; Order.subtotal := subtotal t;
     Order.shippingCharge := shippingCharge t; Order.discount := 0%Q;
     Order.totalAmount := (subtotal t + shippingCharge t)%Q;
     Order.orderStatus := Order.pending; Order.trackingNumber := None;
     Order.courier := None; Order.deliveredAt := None;
     Order.isCancelled := false; Order.cancelledAt := None;
     Order.cancellationReason := None; Order.isReturned := false;
     Order.returnRequestedAt := None; Order.returnReason := None;
     Order.returnStatus := None; Order.statusHistory := [];
     Order.coupon := None; Order.createdAt := 0%Z |}.


(** [cancelOrder]: PUT /api/orders/:id/cancel *)
Definition cancelOrder (env : Env) (userId id : ObjectId) (reason : option string)
  : M Response :=
  catch
    (let* order := OrderModel.findById id in
     match order with
     | None => ret (Failure 404 (Text "Order not found"))
     | Some order =>
         if negb (String.eqb (Order.user order) userId)
         then ret (Failure 403 (Text "Not authorized"))
         else if Order.status_eqb (Order.orderStatus order) Order.delivered
                 || Order.status_eqb (Order.orderStatus order) Order.cancelled
         then ret (Failure 400 (CannotCancel (Order.orderStatus order)))
         else
           let* order' := OrderModel.cancelOrder env reason order in
           ret (Success 200 "Order cancelled successfully" (OrderData order'))
     end)
    (fun e => ret (Next e)).

(** [validStatuses.includes(status)] *)
Definition validStatus (status : string) : option Order.Status :=
  if String.eqb status "confirmed" then Some Order.confirmed
  else if String.eqb status "processing" then Some Order.processing
  else if String.eqb status "shipped" then Some Order.shipped
  else if String.eqb status "delivered" then Some Order.delivered
  else None.

(** [updateOrderStatus]: PUT /api/orders/:id/status *)
Definition updateOrderStatus (env : Env) (id : ObjectId) (status : string)
    (trackingNumber courier note : option string) : M Response :=
  catch
    (match validStatus status with
     | None => ret (Failure 400 (Text "Invalid status"))
     | Some newStatus =>
         let* order := OrderModel.findById id in
         match order with
         | None => ret (Failure 404 (Text "Order not found"))
         | Some order =>
             let order1 :=
               Order.set_tracking order
                 (if Js.ToBoolean (Js.ofOptionString trackingNumber)
                  then trackingNumber else Order.trackingNumber order)
                 (if Js.ToBoolean (Js.ofOptionString courier)
                  then courier else Order.courier order) in
             let* order' :=
               OrderModel.updateStatus env newStatus (default "" note) order1 in
             ret (Success 200 "Order status updated" (OrderData order'))
         end
     end)
    (fun e => ret (Next e)).

(** [requestReturn]: POST /api/orders/:id/return *)
Definition requestReturn (env : Env) (userId id : ObjectId) (reason : option string)
  : M Response :=
  catch
    (let* order := OrderModel.findById id in
     match order with
     | None => ret (Failure 404 (Text "Order not found"))
     | Some order =>
         if negb (String.eqb (Order.user order) userId)
         then ret (Failure 403 (Text "Not authorized"))
         else
           let* order' := OrderModel.requestReturn env reason order in
           ret (Success 200 "Return request submitted successfully" (OrderData order'))
     end)
    (fun e => ret (Next e)).

End OrderController.

(** ** Closed forms used to state the properties *)

Module Effects.
Import Store.

(** The document [order.save()] writes: both hooks applied, and the
    creation timestamp set when the document is new. *)
Definition savedOrder (env : Env) (w : World) (o : Order.t) : Order.t :=
  let o2 := OrderModel.appendHistory env w (OrderModel.assignOrderId env w o) in
  match orders w !! Order._id o2 with
  | Some _ => o2
  | None => Order.set_createdAt o2 (now env)
  end.

(** The database after a document has been written. *)
Definition withOrder (o : Order.t) (w : World) : World :=
  {| orders := <[Order._id o := o]> (orders w); coupons := coupons w;
     products := products w; carts := carts w;
     log := log w ++ [OrderSaved o] |}.

Definition withCoupon (c : Coupon.t) (w : World) : World :=
  {| orders := orders w; coupons := <[Coupon.code c := c]> (coupons w);
     products := products w; carts := carts w;
     log := log w ++ [CouponSaved c] |}.

(** The snapshot and the order [applyCoupon] builds from a discount. *)
Definition snapshotOf (env : Env) (c : Coupon.t) (d : Coupon.Discount)
  : Order.CouponSnapshot :=
  {| Order.couponId := Coupon._id c;
     Order.code := Coupon.code c;
     Order.discountType := Coupon.discountType c;
     Order.discountAmount := Coupon.r_discountAmount d;
     Order.freeShipping := Coupon.r_freeShipping d;
     Order.appliedAt := now env |}.

Definition shippingOf (o : Order.t) (d : Coupon.Discount) : Q :=
  if Coupon.r_freeShipping d then 0%Q else Order.shippingCharge o.

Definition couponedOrder (env : Env) (o : Order.t) (c : Coupon.t)
    (d : Coupon.Discount) : Order.t :=
  Order.set_coupon_total o (Some (snapshotOf env c d))
    (Order.subtotal o - Coupon.r_discountAmount d + shippingOf o d)%Q.

(** The ledger [coupon.applyCoupon] writes. *)
Definition usedCoupon (env : Env) (userId orderId : ObjectId) (c : Coupon.t)
    (d : Coupon.Discount) : Coupon.t :=
  Coupon.trackUsage (now env) userId orderId (Coupon.r_discountAmount d) c.

(** The checks of [applyCoupon] all pass for this order, coupon and
    discount. *)
Record Applicable (env : Env) (userId : ObjectId) (couponCode orderId : string)
    (w : World) (o : Order.t) (c : Coupon.t) (d : Coupon.Discount) : Prop := {
  app_code : couponCode <> "";
  app_id : orderId <> "";
  app_order : orders w !! orderId = Some o;
  app_order_id : Order._id o = orderId;
  app_owner : Order.user o = userId;
  app_coupon : coupons w !! Js.toUpperCase couponCode = Some c;
  app_coupon_code : Coupon.code c = Js.toUpperCase couponCode;
  app_usable : CouponModel.usableNow (now env) c = true;
  app_user : Coupon.canUserUse (now env) userId c = Coupon.Valid;
  app_products :
    Forall (fun item => exists p, products w !! Order.product item = Some p
                                  /\ Product._id p = Order.product item)
      (Order.items o);
  app_discount :
    Coupon.calculateDiscount c (Order.subtotal o)
      (map (fun item => {| Coupon.product := Order.product item;
                           Coupon.quantity := Order.quantity item |})
         (Order.items o))
    = Coupon.DiscountValid d
}.

(** The outcome of [applyCoupon] for a request that got past the checks:
    the order write, then the ledger write. *)
Definition applied (env : Env) (userId : ObjectId) (couponCode orderId : string)
    (w : World) (o : Order.t) (c : Coupon.t) (d : Coupon.Discount)
  : Result Response * World :=
  let o1 := OrderModel.assignOrderId env w (couponedOrder env o c d) in
  let c1 := usedCoupon env userId orderId c d in
  if orderSaveRejected env then (Ok (Next SaveRejected), w)
  else
    match Coupon.preSave (now env) c1 with
    | Some e => (Ok (Next e), withOrder o1 w)
    | None =>
        if couponSaveRejected env
        then (Ok (Next SaveRejected), withOrder o1 w)
        else
          (Ok (Success 200 "Coupon applied successfully"
                 (Applied
                    {| ad_coupon := snapshotOf env c d;
                       ad_subtotal := Order.subtotal o1;
                       ad_discountAmount := Coupon.r_discountAmount d;
                       ad_shippingCharge := shippingOf o d;
                       ad_totalAmount := Order.totalAmount o1 |})),
           withCoupon c1 (withOrder o1 w))
    end.

(** The [increaseStock] calls recorded in a log, in order. *)
Definition stockCalls (l : list Event) : list (ObjectId * Z * option string) :=
  flat_map
    (fun e =>
       match e with
       | IncreaseStock id q sku => [(id, q, sku)]
       | _ => []
       end)
    l.

(** [Product.findById] finds a product for this identifier. *)
Definition known (w : World) (id : ObjectId) : bool :=
  match products w !! id with
  | Some p => String.eqb (Product._id p) id
  | None => false
  end.

Definition callOf (item : Order.Item) : ObjectId * Z * option string :=
  (Order.product item, Order.quantity item, Order.variantSku item).

Definition withProduct (p : Product.t) (w : World) : World :=
  {| orders := orders w; coupons := coupons w;
     products := <[Product._id p := p]> (products w); carts := carts w;
     log := log w ++ [ProductSaved p] |}.

(** No product write is refused and every stored product passes the SKU
    hook: the product writes of a request succeed. *)
Definition productsWritable (env : Env) (w : World) : Prop :=
  (forall id, productSaveRejected env id = false)
  /\ (forall id p, products w !! id = Some p -> Product.skuHook p = None).

(** The errors a product write can raise. *)
Definition productError (e : Error) : Prop :=
  e = VariantWithoutSku \/ e = DuplicateSkus \/ e = SaveRejected.

(** The line items whose product [Product.findById] finds. *)
Definition foundItems (w : World) (items : list Order.Item) : list Order.Item :=
  List.filter (fun item => known w (Order.product item)) items.

(** The reasons [canUserUse] (with [isValid]) can give. *)
Definition eligibilityReason (r : Coupon.Reason) : Prop :=
  match r with
  | Coupon.NotActive | Coupon.Expired | Coupon.NotYetValid
  | Coupon.UsageLimitReached | Coupon.NotApplicableForYou
  | Coupon.AlreadyUsed _ => True
  | _ => False
  end.

(** The payload of a successful [validateCoupon]. *)
Definition validated (c : Coupon.t) (d : Coupon.Discount) : Payload :=
  Validated
    {| vd_couponId := Coupon._id c;
       vd_couponCode := Coupon.code c;
       vd_discountType := Coupon.r_discountType d;
       vd_discountAmount := Coupon.r_discountAmount d;
       vd_freeShipping := Coupon.r_freeShipping d;
       vd_originalTotal := Coupon.r_originalTotal d;
       vd_finalTotal := Coupon.r_finalTotal d;
       vd_savings := Coupon.r_discountAmount d |}.







(** The number of units in a list of cart lines, as the pre-save hook of
    the cart sums it. *)
Definition quantityOf (l : list Cart.Item) : Z :=
  fold_left (fun sum item => (sum + Cart.quantity item)%Z) l 0%Z.





End Effects.

(** ** The wording of the specification, for comparison with the code *)

Module Spec.

(** Round-half-up of [x] to a whole number of currency units [unit]. *)
Definition roundHalfUp (unit x : Q) : Q :=
  (unit * inject_Z (Qfloor (x / unit + (1 # 2))))%Q.

(** [x] is a rounded amount: rounding leaves it unchanged. *)
Definition rounded (unit x : Q) : Prop := (roundHalfUp unit x == x)%Q.


End Spec.

(** ** Sample data: the scenarios of the specification *)

Module Sample.
Local Open Scope Z_scope.

Definition day : Z := 1000 * 60 * 60 * 24.

(** 2026-11-01T10:00:00Z *)
Definition t0 : Date := 20758 * day + 10 * 3600000.

Definition envAt (t : Date) : Env := {|
  now := t;
  calendar := Utc.calendar;
  ORDER_ID_PREFIX := None;
  orderSaveRejected := false;
  couponSaveRejected := false;
  productSaveRejected := fun _ => false;
  cartSaveRejected := false
|}.

Definition env0 : Env := envAt t0.

(** The same instant when the storage refuses the coupon write. *)
Definition envCouponDown : Env := {|
  now := t0;
  calendar := Utc.calendar;
  ORDER_ID_PREFIX := None;
  orderSaveRejected := false;
  couponSaveRejected := true;
  productSaveRejected := fun _ => false;
  cartSaveRejected := false
|}.

Definition coupon (code : string) (ty : Coupon.DiscountType) (value : Q)
    (cap : option Q) (minOrder : Q) : Coupon.t := {|
  Coupon._id := "c-" +:+ code;
  Coupon.code := code;
  Coupon.discountType := ty;
  Coupon.discountValue := value;
  Coupon.maxDiscountAmount := cap;
  Coupon.minOrderValue := minOrder;
  Coupon.maxUsageLimit := None;
  Coupon.maxUsagePerUser := 1;
  Coupon.validFrom := t0 - day;
  Coupon.validUntil := t0 + 30 * day;
  Coupon.isActive := true;
  Coupon.applicableCategories := [];
  Coupon.applicableProducts := [];
  Coupon.applicableUsers := [];
  Coupon.usageCount := 0;
  Coupon.userUsage := [];
  Coupon.freeShipping := false;
  Coupon.excludedProducts := []
|}.

(** SAVE20: 20 percent, at most 200, orders from 500. *)
Definition save20 : Coupon.t := coupon "SAVE20" Coupon.percentage 20 (Some 200%Q) 500.

(** FLAT50: 50 off. *)
Definition flat50 : Coupon.t := coupon "FLAT50" Coupon.fixed 50 None 0.

(** SAVE15: 15 percent, at most 1000. *)
Definition save15 : Coupon.t := coupon "SAVE15" Coupon.percentage 15 (Some 1000%Q) 0.

(** ALL100: 100 percent, at most 1000. *)
Definition all100 : Coupon.t := coupon "ALL100" Coupon.percentage 100 (Some 1000%Q) 0.

Definition product (id cat : ObjectId) (price : Q) (stock : Z) (ship : Q)
  : Product.t := {|
  Product._id := id;
  Product.category := cat;
  Product.seller := "seller1";
  Product.price := price;
  Product.stock := stock;
  Product.hasVariants := false;
  Product.variants := [];
  Product.totalSold := 0;
  Product.isActive := true;
  Product.isOutOfStock := false;
  Product.freeShipping := false;
  Product.shippingCharge := ship;
  Product.approvalStatus := Product.approved
|}.

Definition p1 : Product.t := product "p1" "books" 250 10 40.
Definition p2 : Product.t := product "p2" "toys" 500 5 0.

Definition item (pid : ObjectId) (qty : Z) (price : Q) : Order.Item := {|
  Order.product := pid;
  Order.variantSku := None;
  Order.quantity := qty;
  Order.price := price;
  Order.totalPrice := (price * inject_Z qty)%Q;
  Order.seller := "seller1"
|}.

Definition order (id : ObjectId) (st : Order.Status) (its : list Order.Item)
    (sub ship : Q) (delivered : option Date) : Order.t := {|
  Order._id := id;
  Order.orderId := Some "ORD202610310001";
  Order.user := "u1";
  Order.items := its;
  Order.subtotal := sub;
  Order.shippingCharge := ship;
  Order.discount := 0;
  Order.totalAmount := (sub + ship)%Q;
  Order.orderStatus := st;
  Order.trackingNumber := None;
  Order.courier := None;
  Order.deliveredAt := delivered;
  Order.isCancelled := false;
  Order.cancelledAt := None;
  Order.cancellationReason := None;
  Order.isReturned := false;
  Order.returnRequestedAt := None;
  Order.returnReason := None;
  Order.returnStatus := None;
  Order.statusHistory := [];
  Order.coupon := None;
  Order.createdAt := t0 - day
|}.

(** An order of 3 x p1 and 1 x p2, still in processing. *)
Definition o1 : Order.t :=
  order "o1" Order.processing [item "p1" 3 250; item "p2" 1 500] 1250 40 None.

Definition world (os : list Order.t) (cs : list Coupon.t) (ps : list Product.t)
  : Store.World := {|
  Store.orders := list_to_map (map (fun o => (Order._id o, o)) os);
  Store.coupons := list_to_map (map (fun c => (Coupon.code c, c)) cs);
  Store.products := list_to_map (map (fun p => (Product._id p, p)) ps);
  Store.carts := [];
  Store.log := []
|}.

Definition w0 : Store.World := world [o1] [save20; flat50] [p1; p2].

(** A coupon restricted to the category "electronics" only. *)
Definition electronicsOnly : Coupon.t := {|
  Coupon._id := "c-ELEC10";
  Coupon.code := "ELEC10";
  Coupon.discountType := Coupon.fixed;
  Coupon.discountValue := 10;
  Coupon.maxDiscountAmount := None;
  Coupon.minOrderValue := 0;
  Coupon.maxUsageLimit := None;
  Coupon.maxUsagePerUser := 1;
  Coupon.validFrom := t0 - day;
  Coupon.validUntil := t0 + 30 * day;
  Coupon.isActive := true;
  Coupon.applicableCategories := ["electronics"];
  Coupon.applicableProducts := [];
  Coupon.applicableUsers := [];
  Coupon.usageCount := 0;
  Coupon.userUsage := [];
  Coupon.freeShipping := false;
  Coupon.excludedProducts := []
|}.


(** The order o1 once delivered at instant [d]. *)
Definition deliveredAt (d : Date) : Order.t :=
  order "o1" Order.delivered [item "p1" 3 250; item "p2" 1 500] 1250 40 (Some d).

Definition wDelivered (d : Date) : Store.World :=
  world [deliveredAt d] [save20; flat50] [p1; p2].

(** The order o1 after its second product was deleted from the catalog. *)
Definition wP2Deleted : Store.World := world [o1] [save20; flat50] [p1].

(** VIP10: reserved to the user "vip". *)
Definition vip10 : Coupon.t := {|
  Coupon._id := "c-VIP10";
  Coupon.code := "VIP10";
  Coupon.discountType := Coupon.fixed;
  Coupon.discountValue := 10;
  Coupon.maxDiscountAmount := None;
  Coupon.minOrderValue := 0;
  Coupon.maxUsageLimit := None;
  Coupon.maxUsagePerUser := 1;
  Coupon.validFrom := t0 - day;
  Coupon.validUntil := t0 + 30 * day;
  Coupon.isActive := true;
  Coupon.applicableCategories := [];
  Coupon.applicableProducts := [];
  Coupon.applicableUsers := ["vip"];
  Coupon.usageCount := 0;
  Coupon.userUsage := [];
  Coupon.freeShipping := false;
  Coupon.excludedProducts := []
|}.

(** ONCE5: already used once, the per-user cap, by the user "u1". *)
Definition once5 : Coupon.t := {|
  Coupon._id := "c-ONCE5";
  Coupon.code := "ONCE5";
  Coupon.discountType := Coupon.fixed;
  Coupon.discountValue := 5;
  Coupon.maxDiscountAmount := None;
  Coupon.minOrderValue := 0;
  Coupon.maxUsageLimit := None;
  Coupon.maxUsagePerUser := 1;
  Coupon.validFrom := t0 - day;
  Coupon.validUntil := t0 + 30 * day;
  Coupon.isActive := true;
  Coupon.applicableCategories := [];
  Coupon.applicableProducts := [];
  Coupon.applicableUsers := [];
  Coupon.usageCount := 1;
  Coupon.userUsage :=
    [{| Coupon.user := "u1"; Coupon.usedCount := 1;
        Coupon.lastUsedAt := Some (t0 - day);
        Coupon.usageHistory :=
          [{| Coupon.h_orderId := "o0"; Coupon.h_discountAmount := 5;
              Coupon.h_usedAt := t0 - day |}] |}];
  Coupon.freeShipping := false;
  Coupon.excludedProducts := []
|}.

Definition wVip : Store.World := world [o1] [vip10; once5] [p1; p2].

(** The document [createOrder] hands to [Order.create] for 2 x p1. *)
Definition fresh : Order.t :=
  OrderController.newOrder "o9" "u1"
    {| OrderController.subtotal := 500; OrderController.shippingCharge := 40;
       OrderController.orderItems := [item "p1" 2 250] |}.






Definition line (pid : ObjectId) (qty : Z) (price : Q) : Cart.Item := {|
  Cart.product := pid;
  Cart.quantity := qty;
  Cart.variantSku := None;
  Cart.price := price;
  Cart.totalPrice := (price * inject_Z qty)%Q
|}.

(** The cart of "u1": 2 x p1 and 1 x p2. *)
Definition cart1 : Cart.t := {|
  Cart._id := "cart1";
  Cart.user := Some "u1";
  Cart.sessionId := None;
  Cart.items := [line "p1" 2 250; line "p2" 1 500];
  Cart.totalItems := 3;
  Cart.subtotal := 1000
|}.

(** A shirt in two sizes; size M is sold out. *)
Definition shirt : Product.t := {|
  Product._id := "p3";
  Product.category := "clothing";
  Product.seller := "seller1";
  Product.price := 300;
  Product.stock := 2;
  Product.hasVariants := true;
  Product.variants :=
    [{| Product.sku := Some "SHIRT-S"; Product.v_price := 300;
        Product.v_stock := 2; Product.isAvailable := true |};
     {| Product.sku := Some "SHIRT-M"; Product.v_price := 320;
        Product.v_stock := 0; Product.isAvailable := false |}];
  Product.totalSold := 0;
  Product.isActive := true;
  Product.isOutOfStock := false;
  Product.freeShipping := false;
  Product.shippingCharge := 40;
  Product.approvalStatus := Product.approved
|}.

(** The order o1 once cancelled. *)
Definition wCancelled : Store.World :=
  world [order "o1" Order.cancelled [item "p1" 3 250; item "p2" 1 500] 1250 40 None]
    [save20; flat50] [p1; p2].

End Sample.

(** * Properties *)

(** ** Auxiliary facts *)

Lemma Qlt_bool_true x y : Js.Qlt_bool x y = true <-> (x < y)%Q.
Proof.
  unfold Js.Qlt_bool. rewrite negb_true_iff.
  destruct (Qle_bool y x) eqn:E.
  - apply Qle_bool_iff in E. split; [discriminate|]. intros H.
    exfalso. apply (Qlt_not_le _ _ H E).
  - split; [|reflexivity]. intros _. apply Qnot_le_lt. intros H.
    apply Qle_bool_iff in H. congruence.
Qed.

Lemma Qlt_bool_false x y : Js.Qlt_bool x y = false <-> (y <= x)%Q.
Proof. unfold Js.Qlt_bool. rewrite negb_false_iff. apply Qle_bool_iff. Qed.

Lemma status_eqb_eq a b : Order.status_eqb a b = true <-> a = b.
Proof. destruct a, b; simpl; split; congruence. Qed.

Lemma status_eqb_refl a : Order.status_eqb a a = true.
Proof. by apply status_eqb_eq. Qed.


(** ** Discount computation *)

Section Discount.
Local Open Scope Q_scope.

Variable c : Coupon.t.
Variable cartTotal : Q.

Lemma discountAmountOf_percentage cap :
  Coupon.discountType c = Coupon.percentage ->
  Coupon.maxDiscountAmount c = Some cap ->
  Coupon.discountAmountOf c cartTotal
  == Qmin (Js.fdiv (Js.fmul cartTotal (Coupon.discountValue c)) 100) cap.
Proof.
  intros Hty Hcap. unfold Coupon.discountAmountOf. rewrite Hty, Hcap.
  destruct (Js.Qlt_bool cap _) eqn:E.
  - apply Qlt_bool_true in E. symmetry. apply Q.min_r. by apply Qlt_le_weak.
  - apply Qlt_bool_false in E. symmetry. by apply Q.min_l.
Qed.

Lemma discountAmountOf_fixed :
  Coupon.discountType c = Coupon.fixed ->
  Coupon.discountAmountOf c cartTotal == Qmin (Coupon.discountValue c) cartTotal.
Proof.
  intros Hty. unfold Coupon.discountAmountOf. rewrite Hty.
  destruct (Js.Qlt_bool cartTotal _) eqn:E.
  - apply Qlt_bool_true in E. symmetry. apply Q.min_r. by apply Qlt_le_weak.
  - apply Qlt_bool_false in E. symmetry. by apply Q.min_l.
Qed.

(** What the pre-save hook leaves of a stored percentage coupon. *)
Lemma preSave_percentage now :
  Coupon.preSave now c = None ->
  Coupon.discountType c = Coupon.percentage ->
  Coupon.discountValue c <= 100
  /\ exists cap, Coupon.maxDiscountAmount c = Some cap /\ ~ cap == 0.
Proof.
  unfold Coupon.preSave. intros H Hty. rewrite Hty in H. simpl in H.
  destruct (Js.Qlt_bool 100 _) eqn:E; [discriminate|].
  apply Qlt_bool_false in E. split; [done|].
  destruct (Coupon.maxDiscountAmount c) as [cap|]; simpl in H; [|discriminate].
  exists cap. split; [done|]. intros Hz.
  apply Qeq_bool_iff in Hz. rewrite Hz in H. simpl in H. discriminate.
Qed.

Lemma calculateDiscount_valid items d :
  Coupon.calculateDiscount c cartTotal items = Coupon.DiscountValid d ->
  Coupon.minOrderValue c <= cartTotal
  /\ Coupon.productGate c items = None
  /\ d = {| Coupon.r_discountAmount := Coupon.discountAmountOf c cartTotal;
            Coupon.r_discountType := Coupon.discountType c;
            Coupon.r_freeShipping := Coupon.freeShipping c;
            Coupon.r_originalTotal := cartTotal;
            Coupon.r_finalTotal :=
              Js.fsub cartTotal (Coupon.discountAmountOf c cartTotal) |}.
Proof.
  unfold Coupon.calculateDiscount.
  destruct (Js.Qlt_bool cartTotal _) eqn:E; [discriminate|].
  apply Qlt_bool_false in E.
  destruct (Coupon.productGate c items); [discriminate|].
  intros [= <-]. done.
Qed.

End Discount.

(** C2 (as the code has it).  For a stored coupon (one the pre-save hook
    accepted) that passes the gates of [calculateDiscount], the discount is
    [min (cartTotal * discountValue / 100) maxDiscountAmount] for a
    percentage coupon, the product and the quotient each rounded to
    binary64, and [min discountValue cartTotal] for a fixed one.  A
    percentage discount never exceeds the cap and a fixed discount never
    exceeds the cart total.  The amount is this exact value: no rounding to
    a currency unit is applied. *)
Theorem calculateDiscount_formula (now : Date) (c : Coupon.t) (cartTotal : Q)
    (items : list Coupon.CartItem) (d : Coupon.Discount) :
  Coupon.preSave now c = None ->
  Coupon.calculateDiscount c cartTotal items = Coupon.DiscountValid d ->
  match Coupon.discountType c with
  | Coupon.percentage =>
      exists cap, Coupon.maxDiscountAmount c = Some cap
        /\ (Coupon.r_discountAmount d
            == Qmin (Js.fdiv (Js.fmul cartTotal (Coupon.discountValue c)) 100) cap)%Q
        /\ (Coupon.r_discountAmount d <= cap)%Q
  | Coupon.fixed =>
      (Coupon.r_discountAmount d == Qmin (Coupon.discountValue c) cartTotal)%Q
      /\ (Coupon.r_discountAmount d <= cartTotal)%Q
  end.
Proof.
  intros Hsave Hcalc.
  apply calculateDiscount_valid in Hcalc as (_ & _ & ->). simpl.
  destruct (Coupon.discountType c) eqn:Hty.
  - destruct (preSave_percentage c now Hsave Hty) as (_ & cap & Hcap & _).
    pose proof (discountAmountOf_percentage c cartTotal cap Hty Hcap) as Heq.
    exists cap. split; [done|]. split; [done|].
    rewrite Heq. apply Q.le_min_r.
  - pose proof (discountAmountOf_fixed c cartTotal Hty) as Heq.
    split; [done|]. rewrite Heq. apply Q.le_min_r.
Qed.

(** Scenario A: SAVE20 on a cart of 1000 gives a discount of 200, the cap. *)
Lemma calculateDiscount_formula_witness :
  exists d,
    Coupon.calculateDiscount Sample.save20 1000 [] = Coupon.DiscountValid d
    /\ (Coupon.r_discountAmount d == 200)%Q
    /\ exists cap, Coupon.maxDiscountAmount Sample.save20 = Some cap
                   /\ (Coupon.r_discountAmount d <= cap)%Q.
Proof.
  eexists. split; [reflexivity|]. split; [reflexivity|].
  destruct (calculateDiscount_formula Sample.t0 Sample.save20 1000 [] _
              eq_refl eq_refl) as (cap & Hcap & _ & Hle).
  exists cap. split; [exact Hcap|exact Hle].
Defined.

(** C2, counterexample.  SAVE15 (15 percent) on a cart of 999.99 yields an
    amount that is a whole number neither of hundredths nor of units:
    rounding half up would give 150.  ALL100 (100 percent, a value the
    pre-save hook accepts) on a cart of 3.4499999999999997 yields 3.45,
    which exceeds the cart total. *)
Lemma calculateDiscount_not_rounded :
  (exists d,
     Coupon.calculateDiscount Sample.save15 (Js.binary64 (99999 # 100)) []
     = Coupon.DiscountValid d
     /\ (Spec.roundHalfUp (1 # 100) (Coupon.r_discountAmount d) == 150)%Q
     /\ ~ Spec.rounded (1 # 100) (Coupon.r_discountAmount d)
     /\ ~ Spec.rounded 1 (Coupon.r_discountAmount d))
  /\ (exists d,
        Coupon.preSave Sample.t0 Sample.all100 = None
        /\ Coupon.calculateDiscount Sample.all100
             (Js.binary64 (34499999999999997 # 10000000000000000)) []
           = Coupon.DiscountValid d
        /\ (Coupon.r_discountAmount d == Js.binary64 (345 # 100))%Q
        /\ (Js.binary64 (34499999999999997 # 10000000000000000)
            < Coupon.r_discountAmount d)%Q).
Proof.
  split.
  - eexists. split; [vm_compute; reflexivity|].
    split; [vm_compute; reflexivity|]. split.
    + intros H. vm_compute in H. discriminate.
    + intros H. vm_compute in H. discriminate.
  - eexists. split; [vm_compute; reflexivity|].
    split; [vm_compute; reflexivity|].
    split; vm_compute; reflexivity.
Qed.

(** ** Saving an order *)

Section OrderSave.
Import Store.

Variable env : Env.

Lemma assignOrderId_fields w o :
  let o' := OrderModel.assignOrderId env w o in
  Order._id o' = Order._id o /\ Order.user o' = Order.user o
  /\ Order.items o' = Order.items o /\ Order.subtotal o' = Order.subtotal o
  /\ Order.shippingCharge o' = Order.shippingCharge o
  /\ Order.totalAmount o' = Order.totalAmount o
  /\ Order.orderStatus o' = Order.orderStatus o
  /\ Order.coupon o' = Order.coupon o
  /\ Order.statusHistory o' = Order.statusHistory o.
Proof.
  unfold OrderModel.assignOrderId. by destruct (negb _).
Qed.


Lemma appendHistory_fields w o :
  let o' := OrderModel.appendHistory env w o in
  Order._id o' = Order._id o /\ Order.orderId o' = Order.orderId o
  /\ Order.user o' = Order.user o
  /\ Order.items o' = Order.items o /\ Order.subtotal o' = Order.subtotal o
  /\ Order.shippingCharge o' = Order.shippingCharge o
  /\ Order.totalAmount o' = Order.totalAmount o
  /\ Order.orderStatus o' = Order.orderStatus o
  /\ Order.coupon o' = Order.coupon o.
Proof.
  unfold OrderModel.appendHistory. by destruct (OrderModel.isModifiedStatus _ _).
Qed.

Lemma savedOrder_fields w o :
  let o' := Effects.savedOrder env w o in
  Order._id o' = Order._id o
  /\ Order.user o' = Order.user o
  /\ Order.items o' = Order.items o /\ Order.subtotal o' = Order.subtotal o
  /\ Order.shippingCharge o' = Order.shippingCharge o
  /\ Order.totalAmount o' = Order.totalAmount o
  /\ Order.orderStatus o' = Order.orderStatus o
  /\ Order.coupon o' = Order.coupon o.
Proof.
  unfold Effects.savedOrder.
  destruct (appendHistory_fields w (OrderModel.assignOrderId env w o))
    as (A1 & _ & A2 & A3 & A4 & A5 & A6 & A7 & A8).
  destruct (assignOrderId_fields w o) as (B1 & B2 & B3 & B4 & B5 & B6 & B7 & B8 & _).
  cbv zeta. destruct (orders w !! _); simpl; repeat split; congruence.
Qed.

(** [save()] in closed form. *)
Lemma save_run o w :
  OrderModel.save env o w =
  if orderSaveRejected env then (Throw SaveRejected, w)
  else (Ok (Effects.savedOrder env w o),
        Effects.withOrder (Effects.savedOrder env w o) w).
Proof.
  unfold OrderModel.save, bind, OrderModel.preValidate, OrderModel.preSave.
  destruct (orderSaveRejected env); [reflexivity|].
  unfold OrderModel.isNew, Effects.savedOrder, putOrder, ret, Effects.withOrder.
  cbv zeta.
  destruct (orders w !! _) eqn:E; reflexivity.
Qed.

(** Saving a stored order whose status did not change writes the order as
    it is, up to the identifier the hook derives when there is none. *)
Lemma savedOrder_stored w o old :
  orders w !! Order._id o = Some old ->
  Order.orderStatus old = Order.orderStatus o ->
  Effects.savedOrder env w o = OrderModel.assignOrderId env w o.
Proof.
  intros Hold Hst. unfold Effects.savedOrder.
  destruct (assignOrderId_fields w o) as (B1 & _ & _ & _ & _ & _ & B7 & _).
  assert (Happ : OrderModel.appendHistory env w (OrderModel.assignOrderId env w o)
                 = OrderModel.assignOrderId env w o).
  { unfold OrderModel.appendHistory, OrderModel.isModifiedStatus.
    rewrite B1, Hold, B7, Hst, status_eqb_refl. reflexivity. }
  cbv zeta. rewrite Happ, B1, Hold. reflexivity.
Qed.

End OrderSave.

(** ** Applying a coupon to an order *)

Section ApplyCoupon.
Import Store.

Variable env : Env.
Variable userId : ObjectId.

Lemma truthy_string (o : option string) :
  Js.ToBoolean (Js.ofOptionString o) = true ->
  exists s, o = Some s /\ s <> "".
Proof.
  destruct o as [s|]; simpl; [|discriminate].
  rewrite negb_true_iff. intros H. exists s. split; [done|].
  intros ->. discriminate.
Qed.

Lemma cartItemsOf_run items w :
  (Forall (fun item => exists p, products w !! Order.product item = Some p
                                 /\ Product._id p = Order.product item) items
   /\ CouponController.cartItemsOf items w
      = (Ok (map (fun item => {| Coupon.product := Order.product item;
                                 Coupon.quantity := Order.quantity item |}) items), w))
  \/ CouponController.cartItemsOf items w = (Throw TypeError, w).
Proof.
  induction items as [|item r IH]; simpl.
  - left. split; [constructor|reflexivity].
  - unfold bind, ProductModel.findById.
    destruct (products w !! Order.product item) as [p|] eqn:Hp;
      [|by right].
    destruct (String.eqb (Product._id p) (Order.product item)) eqn:Hid;
      [|by right].
    apply String.eqb_eq in Hid.
    destruct IH as [[HF ->]| ->]; [|by right].
    left. split; [constructor; eauto|].
    unfold ret. by rewrite Hid.
Qed.

(** Every request either stops at a check, leaving the database alone
    and answering something other than success, or passes all checks
    and proceeds to the two writes. *)
Lemma applyCoupon_cases couponCode orderId w :
  (exists r, CouponController.applyCoupon env userId couponCode orderId w = (Ok r, w)
             /\ forall s m data, r <> Success s m data)
  \/ (exists code id o c d,
        couponCode = Some code /\ orderId = Some id
        /\ Effects.Applicable env userId code id w o c d
        /\ CouponController.applyCoupon env userId couponCode orderId w
           = Effects.applied env userId code id w o c d).
Proof.
  enough (H : forall run,
    run = CouponController.applyCoupon env userId couponCode orderId w ->
    (exists r, run = (Ok r, w) /\ forall s m data, r <> Success s m data)
    \/ (exists code id o c d,
          couponCode = Some code /\ orderId = Some id
          /\ Effects.Applicable env userId code id w o c d
          /\ run = Effects.applied env userId code id w o c d)) by eauto.
  intros run. unfold CouponController.applyCoupon, catch.
  destruct (Js.ToBoolean (Js.ofOptionString couponCode)) eqn:Hc;
    cbn [negb orb andb];
    [|intros ->; left; eexists; split; [reflexivity|discriminate]].
  destruct (Js.ToBoolean (Js.ofOptionString orderId)) eqn:Hi;
    cbn [negb orb andb];
    [|intros ->; left; eexists; split; [reflexivity|discriminate]].
  apply truthy_string in Hc as (code & -> & Hcode).
  apply truthy_string in Hi as (id & -> & Hid).
  cbn [from_option Datatypes.id].
  unfold bind at 1. unfold OrderModel.findById at 1.
  destruct (orders w !! id) as [o|] eqn:Ho;
    [|intros ->; left; eexists; split; [reflexivity|discriminate]].
  destruct (String.eqb (Order._id o) id) eqn:Hoid;
    [|intros ->; left; eexists; split; [reflexivity|discriminate]].
  apply String.eqb_eq in Hoid.
  destruct (String.eqb (Order.user o) userId) eqn:Hu; cbn [negb];
    [|intros ->; left; eexists; split; [reflexivity|discriminate]].
  apply String.eqb_eq in Hu.
  unfold bind at 1. unfold CouponModel.findValidCoupon at 1.
  destruct (coupons w !! Js.toUpperCase code) as [c|] eqn:Hcp;
    [|intros ->; left; eexists; split; [reflexivity|discriminate]].
  destruct (String.eqb (Coupon.code c) (Js.toUpperCase code)) eqn:Hcc;
    cbn [andb];
    [|intros ->; left; eexists; split; [reflexivity|discriminate]].
  apply String.eqb_eq in Hcc.
  destruct (CouponModel.usableNow (now env) c) eqn:Hus;
    [|intros ->; left; eexists; split; [reflexivity|discriminate]].
  destruct (Coupon.canUserUse (now env) userId c) eqn:Hv; cbn [Coupon.valid negb];
    [|intros ->; left; eexists; split; [reflexivity|discriminate]].
  unfold bind at 1.
  destruct (cartItemsOf_run (Order.items o) w) as [[HF ->]| ->];
    [|intros ->; left; eexists; split; [reflexivity|discriminate]].
  destruct (Coupon.calculateDiscount c (Order.subtotal o) _) as [d|r] eqn:Hd;
    [|intros ->; left; eexists; split; [reflexivity|discriminate]].
  intros ->. right. exists code, id, o, c, d.
  split; [done|]. split; [done|]. split; [by constructor|].
  unfold Effects.applied, bind. rewrite save_run.
  destruct (orderSaveRejected env); [reflexivity|].
  rewrite (savedOrder_stored env w _ o) by (simpl; congruence).
  unfold CouponModel.applyCoupon, bind, CouponModel.save, Effects.usedCoupon.
  destruct (Coupon.preSave _ _); [reflexivity|].
  destruct (couponSaveRejected env); reflexivity.
Qed.

End ApplyCoupon.

(** C1 (as the code has it).  [applyCoupon] performs two separate writes,
    the order first and the usage ledger second.  A request that stops at a
    check, or whose order write is refused, leaves the database as it was.
    Otherwise the order is written with the coupon snapshot and the
    recomputed total; the ledger write follows, and when it fails the
    order write stays: the log then holds the order write alone. *)
Theorem applyCoupon_order_then_ledger (env : Env) (userId : ObjectId)
    (couponCode orderId : option string) (w : Store.World) :
  let run := CouponController.applyCoupon env userId couponCode orderId w in
  (run.2 = w /\ forall s m data, run.1 <> Store.Ok (Success s m data))
  \/ exists code id o c d,
       Effects.Applicable env userId code id w o c d
       /\ let o1 := OrderModel.assignOrderId env w (Effects.couponedOrder env o c d) in
          let c1 := Effects.usedCoupon env userId id c d in
          Order.coupon o1 = Some (Effects.snapshotOf env c d)
          /\ Order.totalAmount o1
             = (Order.subtotal o - Coupon.r_discountAmount d + Effects.shippingOf o d)%Q
          /\ ((exists data, run.1 = Store.Ok (Success 200 "Coupon applied successfully" data))
              /\ run.2 = Effects.withCoupon c1 (Effects.withOrder o1 w)
              /\ Store.log run.2 = Store.log w ++ [Store.OrderSaved o1; Store.CouponSaved c1]
              \/
              (exists e, run.1 = Store.Ok (Next e))
              /\ (Coupon.preSave (now env) c1 <> None \/ couponSaveRejected env = true)
              /\ run.2 = Effects.withOrder o1 w
              /\ Store.log run.2 = Store.log w ++ [Store.OrderSaved o1]).
Proof.
  cbv zeta.
  destruct (applyCoupon_cases env userId couponCode orderId w)
    as [(r & -> & Hr)|(code & id & o & c & d & -> & -> & Happ & ->)].
  - left. split; [reflexivity|]. intros s m data [= ->]. by eapply Hr.
  - unfold Effects.applied.
    destruct (orderSaveRejected env) eqn:Hrej.
    { left. split; [reflexivity|]. discriminate. }
    right. exists code, id, o, c, d. split; [done|].
    destruct (assignOrderId_fields env w (Effects.couponedOrder env o c d))
      as (_ & _ & _ & _ & _ & Ht & _ & Hc & _).
    split; [by rewrite Hc|]. split; [by rewrite Ht|].
    destruct (Coupon.preSave (now env) _) as [e|] eqn:Hpre.
    { right. split; [by eexists|]. split; [by left|]. split; reflexivity. }
    destruct (couponSaveRejected env) eqn:Hcr.
    { right. split; [by eexists|]. split; [by right|]. split; reflexivity. }
    left. split; [by eexists|]. split; [reflexivity|].
    simpl. by rewrite <- app_assoc.
Qed.

(** C1, counterexample.  SAVE20 applied to order o1 while the storage
    refuses the coupon write: the request fails, the stored order carries
    the coupon and the discounted total, and the stored coupon has no usage
    recorded. *)
Lemma applyCoupon_half_applied :
  let run :=
    CouponController.applyCoupon Sample.envCouponDown "u1" (Some "SAVE20") (Some "o1")
      Sample.w0 in
  run.1 = Store.Ok (Next SaveRejected)
  /\ (exists o, Store.orders run.2 !! "o1" = Some o
                /\ (exists snap, Order.coupon o = Some snap /\ Order.code snap = "SAVE20")
                /\ (Order.totalAmount o == 1090)%Q)
  /\ (exists c, Store.coupons run.2 !! "SAVE20" = Some c
                /\ Coupon.usageCount c = 0%Z /\ Coupon.userUsage c = []).
Proof.
  cbv zeta. split; [reflexivity|]. split.
  - eexists. split; [vm_compute; reflexivity|]. split; [by eexists|reflexivity].
  - eexists. split; [vm_compute; reflexivity|]. split; reflexivity.
Qed.

(** ** Order totals *)







(** ** Scope restrictions of a coupon *)

(** C4, the code at the failing input.  ELEC10 is restricted to the
    category "electronics" and to no particular product; the cart holds one
    book.  [calculateDiscount] accepts the cart and grants the discount:
    the category allow-list is never read. *)
Theorem category_allow_list_ignored :
  Coupon.applicableCategories Sample.electronicsOnly = ["electronics"]
  /\ Coupon.applicableProducts Sample.electronicsOnly = []
  /\ Product.category Sample.p1 = "books"
  /\ exists d,
       Coupon.calculateDiscount Sample.electronicsOnly 250
         [{| Coupon.product := Product._id Sample.p1; Coupon.quantity := 1 |}]
       = Coupon.DiscountValid d
       /\ (Coupon.r_discountAmount d == 10)%Q.
Proof.
  repeat split. eexists. split; reflexivity.
Qed.

(** ** Return requests *)

Lemma savedOrder_returnRequested env w now reason o :
  let o' := Effects.savedOrder env w (Order.markReturnRequested now reason o) in
  Order.isReturned o' = true
  /\ Order.returnRequestedAt o' = Some now
  /\ Order.returnReason o' = reason
  /\ Order.returnStatus o' = Some Order.requested
  /\ Order.orderStatus o' = Order.orderStatus o.
Proof.
  unfold Effects.savedOrder, OrderModel.appendHistory, OrderModel.assignOrderId.
  cbv zeta.
  destruct (negb _); destruct (OrderModel.isModifiedStatus _ _);
    destruct (Store.orders w !! _); done.
Qed.

(** The whole days elapsed exceed 7 exactly from the eighth day on. *)
Lemma days_exceed_7 (elapsed : Z) :
  (7 <? elapsed / OrderModel.msPerDay)%Z = true
  <-> (8 * OrderModel.msPerDay <= elapsed)%Z.
Proof.
  rewrite Z.ltb_lt. unfold OrderModel.msPerDay.
  split; intros H.
  - assert (8 <= elapsed / (1000 * 60 * 60 * 24))%Z by lia.
    pose proof (Z.mul_div_le elapsed (1000 * 60 * 60 * 24)) as Hm. lia.
  - assert (8 <= elapsed / (1000 * 60 * 60 * 24))%Z; [|lia].
    apply Z.div_le_lower_bound; lia.
Qed.

(** C7 (as the code has it).  [requestReturn] throws 'Can only return
    delivered orders' unless the order is delivered.  For a delivered order
    it throws 'Return period has expired' exactly when the whole number of
    days since delivery exceeds 7, that is when at least 8 days have
    elapsed; otherwise it sets the returned flag, the request timestamp, the
    reason and the return status 'requested' and saves the order. *)
Theorem requestReturn_window (env : Env) (reason : option string) (o : Order.t)
    (w : Store.World) :
  let run := OrderModel.requestReturn env reason o w in
  (Order.orderStatus o <> Order.delivered ->
   run = (Store.Throw OnlyReturnDelivered, w))
  /\ (forall deliveredAt,
        Order.orderStatus o = Order.delivered ->
        Order.deliveredAt o = Some deliveredAt ->
        (run.1 = Store.Throw ReturnPeriodExpired
         <-> (8 * OrderModel.msPerDay <= now env - deliveredAt)%Z)
        /\ ((now env - deliveredAt < 8 * OrderModel.msPerDay)%Z ->
            orderSaveRejected env = false ->
            exists o',
              run = (Store.Ok o', Effects.withOrder o' w)
              /\ Order.isReturned o' = true
              /\ Order.returnRequestedAt o' = Some (now env)
              /\ Order.returnReason o' = reason
              /\ Order.returnStatus o' = Some Order.requested
              /\ Order.orderStatus o' = Order.delivered)).
Proof.
  cbv zeta. unfold OrderModel.requestReturn. split.
  - intros Hst. destruct (Order.status_eqb _ _) eqn:E; [|reflexivity].
    apply status_eqb_eq in E. contradiction.
  - intros d Hst Hd. rewrite Hst, Hd. cbn [Order.status_eqb negb].
    destruct (7 <? _)%Z eqn:E.
    + apply days_exceed_7 in E. split; [done|]. intros; lia.
    + assert (Hlt : (now env - d < 8 * OrderModel.msPerDay)%Z).
      { destruct (Z.lt_ge_cases (now env - d) (8 * OrderModel.msPerDay)) as [|H];
          [done|]. apply days_exceed_7 in H. congruence. }
      rewrite save_run. split.
      * split; [|lia]. destruct (orderSaveRejected env); discriminate.
      * intros _ ->.
        destruct (savedOrder_returnRequested env w (now env) reason o)
          as (H1 & H2 & H3 & H4 & H5).
        eexists. split; [reflexivity|]. rewrite Hst in H5. done.
Qed.

(** Scenario E: delivered 8 days ago, the return is refused; delivered 3
    days ago, it is accepted. *)
Lemma requestReturn_window_witness :
  (OrderModel.requestReturn Sample.env0 (Some "damaged")
     (Sample.deliveredAt (Sample.t0 - 8 * Sample.day))
     (Sample.wDelivered (Sample.t0 - 8 * Sample.day))).1
  = Store.Throw ReturnPeriodExpired
  /\ exists o',
       (OrderModel.requestReturn Sample.env0 (Some "damaged")
          (Sample.deliveredAt (Sample.t0 - 3 * Sample.day))
          (Sample.wDelivered (Sample.t0 - 3 * Sample.day))).1 = Store.Ok o'
       /\ Order.returnStatus o' = Some Order.requested.
Proof.
  split.
  - apply (proj2 (requestReturn_window Sample.env0 (Some "damaged")
                    (Sample.deliveredAt (Sample.t0 - 8 * Sample.day))
                    (Sample.wDelivered (Sample.t0 - 8 * Sample.day)))
             (Sample.t0 - 8 * Sample.day)%Z eq_refl eq_refl).
    vm_compute. discriminate.
  - destruct (proj2 (proj2 (requestReturn_window Sample.env0 (Some "damaged")
                    (Sample.deliveredAt (Sample.t0 - 3 * Sample.day))
                    (Sample.wDelivered (Sample.t0 - 3 * Sample.day)))
             (Sample.t0 - 3 * Sample.day)%Z eq_refl eq_refl) eq_refl eq_refl)
      as (o' & Hrun & _ & _ & _ & Hrs & _).
    exists o'. split; [by rewrite Hrun|done].
Defined.

(** C7, counterexample.  Delivered seven and a half days ago, which is
    more than the 7-day period: the return is accepted. *)
Lemma requestReturn_after_7_days :
  let d := (Sample.t0 - 7 * Sample.day - 12 * 3600000)%Z in
  (7 * OrderModel.msPerDay < now Sample.env0 - d)%Z
  /\ exists o',
       (OrderModel.requestReturn Sample.env0 (Some "damaged") (Sample.deliveredAt d)
          (Sample.wDelivered d)).1 = Store.Ok o'
       /\ Order.isReturned o' = true
       /\ Order.returnStatus o' = Some Order.requested.
Proof.
  cbv zeta. split; [reflexivity|]. eexists. split; [vm_compute; reflexivity|]. done.
Qed.

(** ** Cancellation *)

Section Cancel.
Import Store.

Variable env : Env.

Lemma restock_id q sku p : Product._id (Product.restock q sku p) = Product._id p.
Proof. unfold Product.restock. by destruct (_ && _). Qed.

Lemma updateFirst_skus f q (vs : list Product.Variant) :
  (forall v, Product.sku (f v) = Product.sku v) ->
  map Product.sku (Product.updateFirst q f vs) = map Product.sku vs.
Proof.
  intros Hf. induction vs as [|v r IH]; simpl; [done|].
  destruct (q v); simpl; by rewrite ?Hf, ?IH.
Qed.

Lemma skuHook_ext p p' :
  Product.hasVariants p' = Product.hasVariants p ->
  map Product.sku (Product.variants p') = map Product.sku (Product.variants p) ->
  Product.skuHook p' = Product.skuHook p.
Proof.
  intros Hh Hs. unfold Product.skuHook. rewrite Hh, Hs.
  replace (length (Product.variants p')) with (length (Product.variants p));
    [done|].
  by rewrite <- (length_map Product.sku (Product.variants p)), <- Hs, length_map.
Qed.

Lemma stockHook_shape p :
  Product._id (Product.stockHook p) = Product._id p
  /\ Product.hasVariants (Product.stockHook p) = Product.hasVariants p
  /\ Product.variants (Product.stockHook p) = Product.variants p.
Proof.
  unfold Product.stockHook.
  destruct (Product.hasVariants p) eqn:E; simpl; by rewrite ?E.
Qed.

Lemma stockHook_id p : Product._id (Product.stockHook p) = Product._id p.
Proof. apply stockHook_shape. Qed.

Lemma skuHook_stockHook p : Product.skuHook (Product.stockHook p) = Product.skuHook p.
Proof.
  destruct (stockHook_shape p) as (_ & H1 & H2).
  apply skuHook_ext; [done|by rewrite H2].
Qed.

Lemma skuHook_restock q sku p :
  Product.skuHook (Product.restock q sku p) = Product.skuHook p.
Proof.
  apply skuHook_ext; unfold Product.restock;
    destruct (Product.hasVariants p && _); simpl; try done.
  by apply updateFirst_skus.
Qed.

(** [product.save()] in closed form. *)
Lemma product_save_run p w :
  ProductModel.save env p w =
  match Product.skuHook p with
  | Some e => (Throw e, w)
  | None =>
      if productSaveRejected env (Product._id p) then (Throw SaveRejected, w)
      else (Ok tt, Effects.withProduct (Product.stockHook p) w)
  end.
Proof.
  unfold ProductModel.save. destruct (Product.skuHook p); [reflexivity|].
  destruct (productSaveRejected _ _); reflexivity.
Qed.

Lemma known_withProduct p w id :
  Effects.known w (Product._id p) = true ->
  Effects.known (Effects.withProduct p w) id = Effects.known w id.
Proof.
  unfold Effects.known, Effects.withProduct. simpl. intros H.
  destruct (decide (Product._id p = id)) as [<-|Hne].
  - rewrite lookup_insert_eq, H. by rewrite String.eqb_refl.
  - by rewrite lookup_insert_ne.
Qed.

Lemma stockCalls_app l1 l2 :
  Effects.stockCalls (l1 ++ l2) = Effects.stockCalls l1 ++ Effects.stockCalls l2.
Proof. unfold Effects.stockCalls. apply flat_map_app. Qed.

(** One round of the restock loop. *)
Lemma restoreStock_run item w :
  exists r w',
    OrderModel.restoreStock env item w = (r, w')
    /\ orders w' = orders w /\ coupons w' = coupons w /\ carts w' = carts w
    /\ (forall id, Effects.known w' id = Effects.known w id)
    /\ match r with
       | Ok _ =>
           Effects.stockCalls (log w')
           = Effects.stockCalls (log w)
             ++ (if Effects.known w (Order.product item)
                 then [Effects.callOf item] else [])
       | Throw e => Effects.productError e
       end
    /\ (Effects.productsWritable env w ->
        r = Ok tt /\ Effects.productsWritable env w').
Proof.
  unfold OrderModel.restoreStock, bind, ProductModel.findById.
  assert (Hk : Effects.known w (Order.product item)
               = match products w !! Order.product item with
                 | Some p => String.eqb (Product._id p) (Order.product item)
                 | None => false
                 end) by done.
  rewrite Hk. clear Hk.
  destruct (products w !! Order.product item) as [p|] eqn:Hp.
  2:{ exists (Ok tt), w. rewrite app_nil_r. split_and!; done. }
  destruct (String.eqb (Product._id p) (Order.product item)) eqn:Hid.
  2:{ exists (Ok tt), w. rewrite app_nil_r. split_and!; done. }
  apply String.eqb_eq in Hid.
  unfold ProductModel.increaseStock, bind, emit. rewrite product_save_run.
  rewrite restock_id.
  set (w1 := {| orders := orders w; coupons := coupons w; products := products w;
                carts := carts w;
                log := log w ++ [IncreaseStock (Product._id p) (Order.quantity item)
                                   (Order.variantSku item)] |}).
  assert (Hk1 : forall id, Effects.known w1 id = Effects.known w id) by done.
  rewrite skuHook_restock.
  destruct (Product.skuHook p) as [e|] eqn:Hsku.
  { exists (Throw e), w1. split_and!; try done.
    - unfold Product.skuHook in Hsku. unfold Effects.productError.
      repeat match type of Hsku with
             | context [if ?b then _ else _] => destruct b
             end; simplify_eq; tauto.
    - intros [_ Hw]. specialize (Hw _ _ Hp). congruence. }
  destruct (productSaveRejected env (Product._id p)) eqn:Hrej.
  { exists (Throw SaveRejected), w1. split_and!; try done.
    - unfold Effects.productError; tauto.
    - intros [Hr _]. rewrite Hr in Hrej. discriminate. }
  eexists (Ok tt), _. split; [reflexivity|].
  assert (Hkp : Effects.known w1
                  (Product._id (Product.stockHook
                     (Product.restock (Order.quantity item) (Order.variantSku item) p)))
                = true).
  { rewrite stockHook_id, restock_id. unfold Effects.known. simpl.
    rewrite Hid, Hp. by rewrite Hid, String.eqb_refl. }
  split_and!; try done.
  - intros id. rewrite known_withProduct by done. apply Hk1.
  - simpl. rewrite !stockCalls_app. simpl. rewrite !app_nil_r.
    by rewrite Hid.
  - intros [Hr Hw]. split; [done|]. split; [done|].
    simpl. intros id p'. rewrite stockHook_id, restock_id.
    destruct (decide (Product._id p = id)) as [<-|Hne].
    + rewrite lookup_insert_eq. intros [= <-].
      rewrite skuHook_stockHook, skuHook_restock. done.
    + rewrite lookup_insert_ne by done. apply Hw.
Qed.

(** The restock loop over all line items. *)
Lemma restoreLoop_run items w :
  exists r w',
    forEach (OrderModel.restoreStock env) items w = (r, w')
    /\ orders w' = orders w /\ coupons w' = coupons w /\ carts w' = carts w
    /\ (forall id, Effects.known w' id = Effects.known w id)
    /\ match r with
       | Ok _ =>
           Effects.stockCalls (log w')
           = Effects.stockCalls (log w)
             ++ map Effects.callOf (Effects.foundItems w items)
       | Throw e => Effects.productError e
       end
    /\ (Effects.productsWritable env w ->
        r = Ok tt /\ Effects.productsWritable env w').
Proof.
  revert w. induction items as [|item rest IH]; intros w.
  - exists (Ok tt), w. simpl. rewrite app_nil_r. split_and!; done.
  - simpl. unfold bind.
    destruct (restoreStock_run item w)
      as (r1 & w1 & -> & Ho & Hc & Hca & Hk & Hr & Hw).
    destruct r1 as [[]|e].
    + destruct (IH w1) as (r2 & w2 & -> & Ho2 & Hc2 & Hca2 & Hk2 & Hr2 & Hw2).
      exists r2, w2. split; [done|].
      split; [congruence|]. split; [congruence|]. split; [congruence|].
      split; [intros id; by rewrite Hk2, Hk|]. split.
      * destruct r2 as [[]|e2]; [|done].
        rewrite Hr2, Hr. unfold Effects.foundItems. simpl.
        rewrite <- app_assoc. f_equal.
        rewrite (filter_ext (fun item0 => Effects.known w1 (Order.product item0))
                   (fun item0 => Effects.known w (Order.product item0)))
          by (intros; apply Hk).
        by destruct (Effects.known w (Order.product item)).
      * intros H. destruct (Hw H) as [_ H1]. by apply Hw2.
    + exists (Throw e), w1. split_and!; done.
Qed.

Lemma savedOrder_cancelled w now reason o :
  let o' := Effects.savedOrder env w (Order.markCancelled now reason o) in
  Order.orderStatus o' = Order.cancelled
  /\ Order.isCancelled o' = true
  /\ Order.cancelledAt o' = Some now
  /\ Order.cancellationReason o' = reason.
Proof.
  unfold Effects.savedOrder, OrderModel.appendHistory, OrderModel.assignOrderId.
  cbv zeta.
  destruct (negb _); destruct (OrderModel.isModifiedStatus _ _);
    destruct (Store.orders w !! _); done.
Qed.

End Cancel.

(** C6 (as the code has it).  [cancelOrder] throws 'Cannot cancel delivered
    order' exactly when the order is delivered, and then nothing is changed.
    Otherwise, when it returns, the status is 'cancelled', the cancellation
    flag, timestamp and reason are set, and [increaseStock] was called once,
    in order, for every line item whose product is found in the catalog,
    with the quantity and variant SKU of the item; a line item whose
    product no longer exists is skipped.  It does return when no write is
    refused and the stored products pass the SKU hook. *)
Theorem cancelOrder_restocks_found_items (env : Env) (reason : option string)
    (o : Order.t) (w : Store.World) :
  let run := OrderModel.cancelOrder env reason o w in
  (Order.orderStatus o = Order.delivered ->
   run = (Store.Throw CannotCancelDelivered, w))
  /\ (run.1 = Store.Throw CannotCancelDelivered -> Order.orderStatus o = Order.delivered)
  /\ (Order.orderStatus o <> Order.delivered ->
      (forall o', run.1 = Store.Ok o' ->
         Order.orderStatus o' = Order.cancelled
         /\ Order.isCancelled o' = true
         /\ Order.cancelledAt o' = Some (now env)
         /\ Order.cancellationReason o' = reason
         /\ Store.orders run.2 !! Order._id o = Some o'
         /\ Effects.stockCalls (Store.log run.2)
            = Effects.stockCalls (Store.log w)
              ++ map Effects.callOf (Effects.foundItems w (Order.items o)))
      /\ (orderSaveRejected env = false -> Effects.productsWritable env w ->
          exists o', run.1 = Store.Ok o')).
Proof.
  cbv zeta. unfold OrderModel.cancelOrder.
  destruct (Order.status_eqb (Order.orderStatus o) Order.delivered) eqn:Hst.
  { apply status_eqb_eq in Hst. split; [done|]. split; [done|]. done. }
  assert (Hnd : Order.orderStatus o <> Order.delivered).
  { intros H. rewrite H in Hst. discriminate. }
  split; [done|].
  unfold Store.bind.
  destruct (restoreLoop_run env (Order.items (Order.markCancelled (now env) reason o)) w)
    as (r & w1 & -> & Ho & _ & _ & _ & Hr & Hw).
  destruct r as [[]|e].
  - rewrite save_run.
    destruct (orderSaveRejected env) eqn:Hrej; simpl.
    + split; [discriminate|]. intros _. split; [discriminate|]. discriminate.
    + split; [discriminate|]. intros _. split.
      * intros o' [= <-].
        destruct (savedOrder_cancelled env w1 (now env) reason o) as (H1 & H2 & H3 & H4).
        destruct (savedOrder_fields env w1 (Order.markCancelled (now env) reason o))
          as (Hid & _).
        split_and!; try done.
        -- rewrite Hid. simpl. apply lookup_insert_eq.
        -- rewrite stockCalls_app, Hr. simpl. by rewrite app_nil_r.
      * intros _ _. by eexists.
  - simpl. split.
    + intros [= ->]. destruct Hr as [?|[?|?]]; discriminate.
    + intros _. split; [discriminate|].
      intros _ H. by destruct (Hw H).
Qed.

(** Scenario F: cancelling the processing order o1 (3 x p1, 1 x p2) calls
    [increaseStock] exactly twice, with these quantities, and the order
    becomes cancelled. *)
Lemma cancelOrder_restocks_found_items_witness :
  exists o',
    (OrderModel.cancelOrder Sample.env0 (Some "changed my mind") Sample.o1 Sample.w0).1
    = Store.Ok o'
    /\ Order.orderStatus o' = Order.cancelled
    /\ Effects.stockCalls
         (Store.log
            (OrderModel.cancelOrder Sample.env0 (Some "changed my mind") Sample.o1
               Sample.w0).2)
       = [("p1", 3%Z, None); ("p2", 1%Z, None)].
Proof.
  pose proof (cancelOrder_restocks_found_items Sample.env0 (Some "changed my mind")
                Sample.o1 Sample.w0) as (_ & _ & H).
  destruct (H ltac:(discriminate)) as [H1 _].
  eexists. split; [reflexivity|].
  destruct (H1 _ eq_refl) as (Hs & _ & _ & _ & _ & Hc).
  split; [exact Hs|exact Hc].
Defined.

(** C6, counterexample.  The product p2 of the second line of o1 was
    deleted from the catalog: cancelling the order calls [increaseStock]
    once, for the first line only. *)
Lemma cancelOrder_skips_missing_product :
  let run :=
    OrderModel.cancelOrder Sample.env0 (Some "changed my mind") Sample.o1
      Sample.wP2Deleted in
  length (Order.items Sample.o1) = 2%nat
  /\ (exists o', run.1 = Store.Ok o' /\ Order.orderStatus o' = Order.cancelled)
  /\ Effects.stockCalls (Store.log run.2) = [("p1", 3%Z, None)].
Proof.
  cbv zeta. split; [reflexivity|]. split; [by eexists|]. vm_compute. reflexivity.
Qed.

(** ** The validation endpoint *)

Lemma toJs_truthy v : Js.ToBoolean (Coupon.toJs v) = true.
Proof. by destruct v. Qed.

Lemma findValidCoupon_run env code w :
  CouponModel.findValidCoupon env code w =
  (Store.Ok
     match Store.coupons w !! Js.toUpperCase code with
     | Some c =>
         if String.eqb (Coupon.code c) (Js.toUpperCase code)
            && CouponModel.usableNow (now env) c
         then Some c else None
     | None => None
     end, w).
Proof. reflexivity. Qed.

(** C8.  In [validateCoupon] the result of [canUserUse] is an object and
    its negation is false: whatever the reason for which the user may not
    use the coupon (absent from the allow-list, per-user cap reached, ...),
    a request for a usable coupon whose cart passes [calculateDiscount] is
    answered 200 'Coupon is valid' with the computed discount. *)
Theorem validateCoupon_ignores_eligibility (env : Env) (userId : ObjectId)
    (code : string) (cartTotal : Q) (cartItems : option (list Coupon.CartItem))
    (w : Store.World) (c : Coupon.t) (r : Coupon.Reason) (d : Coupon.Discount) :
  code <> "" ->
  (0 < cartTotal)%Q ->
  Store.coupons w !! Js.toUpperCase code = Some c ->
  Coupon.code c = Js.toUpperCase code ->
  CouponModel.usableNow (now env) c = true ->
  Coupon.canUserUse (now env) userId c = Coupon.Invalid r ->
  Coupon.calculateDiscount c cartTotal (default [] cartItems) = Coupon.DiscountValid d ->
  CouponController.validateCoupon env userId (Some code) cartTotal cartItems w
  = (Store.Ok (Success 200 "Coupon is valid" (Effects.validated c d)), w).
Proof.
  intros Hcode Hpos Hc Hcc Hus Hinv Hd.
  unfold CouponController.validateCoupon, Store.catch.
  assert (Ht : Js.ToBoolean (Js.ofOptionString (Some code)) = true).
  { simpl. apply negb_true_iff. by apply String.eqb_neq. }
  rewrite Ht. cbn [negb].
  assert (Hle : Qle_bool cartTotal 0 = false).
  { destruct (Qle_bool cartTotal 0) eqn:E; [|done].
    apply Qle_bool_iff in E. exfalso. by apply (Qlt_not_le _ _ Hpos). }
  rewrite Hle. unfold Store.bind. rewrite findValidCoupon_run.
  cbn [from_option Datatypes.id]. rewrite Hc, Hcc, String.eqb_refl, Hus.
  cbn [andb]. rewrite toJs_truthy. cbn [negb]. rewrite Hd. reflexivity.
Qed.

(** VIP10 is reserved to another user and ONCE5 was already used by "u1"
    as often as allowed; "u1" is told that both are valid. *)
Lemma validateCoupon_ignores_eligibility_witness :
  Coupon.canUserUse Sample.t0 "u1" Sample.vip10 = Coupon.Invalid Coupon.NotApplicableForYou
  /\ (exists data,
        (CouponController.validateCoupon Sample.env0 "u1" (Some "VIP10") 1000 None
           Sample.wVip).1 = Store.Ok (Success 200 "Coupon is valid" data))
  /\ Coupon.canUserUse Sample.t0 "u1" Sample.once5 = Coupon.Invalid (Coupon.AlreadyUsed 1)
  /\ (exists data,
        (CouponController.validateCoupon Sample.env0 "u1" (Some "ONCE5") 1000 None
           Sample.wVip).1 = Store.Ok (Success 200 "Coupon is valid" data)).
Proof.
  split; [reflexivity|]. split.
  - eexists.
    erewrite (validateCoupon_ignores_eligibility Sample.env0 "u1" "VIP10" 1000 None
               Sample.wVip Sample.vip10 Coupon.NotApplicableForYou);
      [reflexivity|discriminate|reflexivity|reflexivity|reflexivity|reflexivity
      |reflexivity|reflexivity].
  - split; [reflexivity|]. eexists.
    erewrite (validateCoupon_ignores_eligibility Sample.env0 "u1" "ONCE5" 1000 None
               Sample.wVip Sample.once5 (Coupon.AlreadyUsed 1));
      [reflexivity|discriminate|reflexivity|reflexivity|reflexivity|reflexivity
      |reflexivity|reflexivity].
Defined.

(** ** Order identifiers *)













(** ** The usage ledger *)

Section Ledger.
Import Store.










End Ledger.




(** ** Applying and removing a coupon *)

Section RoundTrip.
Import Store.











End RoundTrip.




(** * Further properties of the models *)

(** ** Coupon status, usage report and pre-save hook *)

(** X1.  [getStatus] answers 'active' exactly for the coupons [isValid]
    accepts. *)
Theorem getStatus_active_iff_valid (now : Date) (c : Coupon.t) :
  Coupon.getStatus now c = Coupon.active <-> Coupon.isValid now c = Coupon.Valid.
Proof.
  unfold Coupon.getStatus, Coupon.isValid.
  destruct (negb _); [split; discriminate|].
  destruct (_ <? _)%Z; [split; discriminate|].
  destruct (now <? _)%Z; [split; discriminate|].
  destruct (_ && _); split; (discriminate || done).
Qed.


(** X3.  The pre-save hook of the coupon accepts exactly: a percentage of at
    most 100 with a cap other than 0, or a fixed value of at least 1; with
    [validFrom] before [validUntil] and [validUntil] in the future.  A
    percentage has no lower bound. *)
Theorem coupon_preSave_accepts (now : Date) (c : Coupon.t) :
  Coupon.preSave now c = None <->
  match Coupon.discountType c with
  | Coupon.percentage =>
      (Coupon.discountValue c <= 100)%Q
      /\ exists cap, Coupon.maxDiscountAmount c = Some cap /\ ~ (cap == 0)%Q
  | Coupon.fixed => (1 <= Coupon.discountValue c)%Q
  end
  /\ (Coupon.validFrom c < Coupon.validUntil c)%Z
  /\ (now < Coupon.validUntil c)%Z.
Proof.
  unfold Coupon.preSave, Coupon.discountTypeBelow1.
  assert (Hdates :
    (if (Coupon.validUntil c <=? Coupon.validFrom c)%Z
     then Some ValidUntilNotAfterValidFrom
     else if (Coupon.validUntil c <=? now)%Z then Some CouponAlreadyExpired else None)
    = None <-> (Coupon.validFrom c < Coupon.validUntil c)%Z /\ (now < Coupon.validUntil c)%Z).
  { destruct (Z.leb_spec (Coupon.validUntil c) (Coupon.validFrom c));
      [split; [discriminate|lia]|].
    destruct (Z.leb_spec (Coupon.validUntil c) now); [split; [discriminate|lia]|].
    split; [lia|done]. }
  destruct (Coupon.discountType c); cbn [orb].
  - destruct (Js.Qlt_bool 100 _) eqn:E.
    { apply Qlt_bool_true in E. split; [discriminate|]. intros [[H _] _]. lra. }
    apply Qlt_bool_false in E.
    destruct (Coupon.maxDiscountAmount c) as [cap|]; cbn [Js.ofOptionQ Js.ToBoolean negb].
    + destruct (Qeq_bool cap 0) eqn:Ecap; cbn [negb].
      * apply Qeq_bool_iff in Ecap. split; [discriminate|].
        intros [[_ (cap' & [= <-] & Hn)] _]. by destruct Hn.
      * rewrite Hdates. split; [|tauto]. intros Hd. split; [|done].
        split; [done|]. exists cap. split; [done|]. intros Hz.
        apply Qeq_bool_iff in Hz. congruence.
    + split; [discriminate|]. by intros [[_ (cap' & [=] & _)] _].
  - destruct (Js.Qlt_bool _ 1) eqn:E.
    { apply Qlt_bool_true in E. split; [discriminate|]. intros [H _]. lra. }
    apply Qlt_bool_false in E. rewrite Hdates. tauto.
Qed.


(** ** The cart *)

Lemma quantityOf_shift (l : list Cart.Item) (a : Z) :
  fold_left (fun sum item => (sum + Cart.quantity item)%Z) l a
  = (a + Effects.quantityOf l)%Z.
Proof.
  unfold Effects.quantityOf. revert a.
  induction l as [|i l IH]; intros a; simpl; [lia|].
  rewrite IH, (IH (0 + _)%Z). lia.
Qed.

Lemma quantityOf_cons i l :
  Effects.quantityOf (i :: l) = (Cart.quantity i + Effects.quantityOf l)%Z.
Proof. unfold Effects.quantityOf at 1. simpl. by rewrite quantityOf_shift. Qed.

Lemma quantityOf_app l1 l2 :
  Effects.quantityOf (l1 ++ l2) = (Effects.quantityOf l1 + Effects.quantityOf l2)%Z.
Proof.
  induction l1 as [|i l1 IH]; [reflexivity|].
  simpl. rewrite !quantityOf_cons, IH. lia.
Qed.

Lemma quantityOf_updateFirst p f l d x :
  (forall i, Cart.quantity (f i) = (Cart.quantity i + d)%Z) ->
  find p l = Some x ->
  Effects.quantityOf (Cart.updateFirst p f l) = (Effects.quantityOf l + d)%Z.
Proof.
  intros Hf. induction l as [|i l IH]; simpl; [discriminate|].
  destruct (p i).
  - intros _. rewrite !quantityOf_cons, Hf. lia.
  - intros H. rewrite !quantityOf_cons, IH by done. lia.
Qed.

(** X5.  [addItem] followed by the pre-save hook raises the number of units
    in the cart by the quantity added, whether the line existed or not. *)
Theorem addItem_totalItems (p : Product.t) (qty : Z) (sku : option string)
    (c : Cart.t) :
  Cart.totalItems (Cart.preSave (Cart.addItem p qty sku c))
  = (Cart.totalItems (Cart.preSave c) + qty)%Z.
Proof.
  change (Effects.quantityOf (Cart.items (Cart.addItem p qty sku c))
          = (Effects.quantityOf (Cart.items c) + qty)%Z).
  unfold Cart.addItem.
  destruct (find _ (Cart.items c)) as [x|] eqn:E; simpl.
  - by apply quantityOf_updateFirst with x.
  - rewrite quantityOf_app, quantityOf_cons.
    change (Effects.quantityOf []) with 0%Z. simpl. lia.
Qed.

(** X6.  [removeItem] keeps exactly the lines the product (and variant, when
    one is given) does not match. *)
Theorem removeItem_keeps (productId : ObjectId) (sku : option string)
    (c : Cart.t) (i : Cart.Item) :
  In i (Cart.items (Cart.removeItem productId sku c))
  <-> In i (Cart.items c) /\ Cart.matches productId sku i = false.
Proof.
  unfold Cart.removeItem, Cart.matches. simpl. rewrite filter_In.
  destruct (Js.ToBoolean _); by rewrite negb_true_iff.
Qed.

Lemma upsert_In c l : In c (CartModel.upsert c l).
Proof.
  induction l as [|x l IH]; simpl; [by left|].
  destruct (String.eqb _ _); [by left|by right].
Qed.

(** X7.  A successful [clearCart] stores the cart without lines, with 0
    units and a subtotal of 0. *)
Theorem clearCart_empties (env : Env) (c c' : Cart.t) (w w' : Store.World) :
  CartModel.clearCart env c w = (Store.Ok c', w') ->
  Cart.items c' = [] /\ Cart.totalItems c' = 0%Z /\ Cart.subtotal c' = 0%Q
  /\ Cart._id c' = Cart._id c /\ In c' (Store.carts w').
Proof.
  unfold CartModel.clearCart, CartModel.save.
  destruct (cartSaveRejected env); [discriminate|].
  intros [= <- <-]. simpl. split_and!; try done. apply upsert_In.
Qed.

Lemma clearCart_empties_witness :
  exists c' w',
    CartModel.clearCart Sample.env0 Sample.cart1
      (Sample.world [] [] []) = (Store.Ok c', w')
    /\ Cart.items c' = [] /\ Cart.totalItems c' = 0%Z /\ In c' (Store.carts w').
Proof.
  eexists _, _. split; [reflexivity|].
  destruct (clearCart_empties Sample.env0 Sample.cart1 _ (Sample.world [] [] []) _
              eq_refl) as (H1 & H2 & _ & _ & H3).
  split; [exact H1|]. split; [exact H2|exact H3].
Defined.



Lemma mergeItem_quantity l g :
  Effects.quantityOf (CartModel.mergeItem l g)
  = (Effects.quantityOf l + Cart.quantity g)%Z.
Proof.
  unfold CartModel.mergeItem.
  destruct (find _ l) as [x|] eqn:E.
  - by apply quantityOf_updateFirst with x.
  - rewrite quantityOf_app, quantityOf_cons.
    change (Effects.quantityOf []) with 0%Z. simpl. lia.
Qed.

(** X9.  The merge loop of [mergeGuestCart] loses no unit: the merged cart
    holds the units of the user cart plus those of the guest cart. *)
Theorem mergeGuestCart_units (userC guest : Cart.t) :
  Cart.totalItems
    (Cart.preSave
       (Cart.set_items userC
          (fold_left CartModel.mergeItem (Cart.items guest) (Cart.items userC))))
  = (Cart.totalItems (Cart.preSave userC) + Cart.totalItems (Cart.preSave guest))%Z.
Proof.
  change (Effects.quantityOf
            (fold_left CartModel.mergeItem (Cart.items guest) (Cart.items userC))
          = (Effects.quantityOf (Cart.items userC)
             + Effects.quantityOf (Cart.items guest))%Z).
  generalize (Cart.items userC) as u.
  induction (Cart.items guest) as [|g gs IH]; intros u; simpl.
  - change (Effects.quantityOf []) with 0%Z. lia.
  - rewrite IH, mergeItem_quantity, quantityOf_cons. lia.
Qed.

(** ** Stock of a product *)

Lemma restock_destock_variants q sku (l : list Product.Variant) :
  let back :=
    Product.updateFirst (Product.hasSku sku)
      (fun v => {| Product.sku := Product.sku v; Product.v_price := Product.v_price v;
                   Product.v_stock := Product.v_stock v + q;
                   Product.isAvailable := true |})
      (Product.updateFirst (Product.hasSku sku)
         (fun v => {| Product.sku := Product.sku v; Product.v_price := Product.v_price v;
                      Product.v_stock := Product.v_stock v - q;
                      Product.isAvailable :=
                        if (Product.v_stock v - q =? 0)%Z then false
                        else Product.isAvailable v |}) l) in
  map Product.v_stock back = map Product.v_stock l
  /\ map Product.sku back = map Product.sku l
  /\ map Product.v_price back = map Product.v_price l.
Proof.
  cbv zeta. induction l as [|v l (IH1 & IH2 & IH3)]; [done|]. simpl.
  destruct (Product.hasSku sku v) eqn:E; simpl.
  - assert (Hm : forall st av,
               Product.hasSku sku
                 {| Product.sku := Product.sku v; Product.v_price := Product.v_price v;
                    Product.v_stock := st; Product.isAvailable := av |} = true)
      by (intros; exact E).
    rewrite Hm. simpl. split_and!; try done. f_equal. lia.
  - rewrite E. simpl. by rewrite IH1, IH2, IH3.
Qed.

(** X10.  [increaseStock] with the quantity and variant of a preceding
    [decreaseStock] restores the stock: the stock of the product and the
    stock, SKU and price of every variant are what they were. *)
Theorem increaseStock_undoes_decreaseStock (q : Z) (sku : option string)
    (p : Product.t) :
  let p' := Product.restock q sku (Product.destock q sku p) in
  Product.stock p' = Product.stock p
  /\ map Product.v_stock (Product.variants p') = map Product.v_stock (Product.variants p)
  /\ map Product.sku (Product.variants p') = map Product.sku (Product.variants p)
  /\ map Product.v_price (Product.variants p') = map Product.v_price (Product.variants p).
Proof.
  cbv zeta. unfold Product.restock, Product.destock.
  destruct (Product.hasVariants p && _) eqn:E; simpl; rewrite E; simpl.
  - split; [done|]. apply restock_destock_variants.
  - split; [lia|done].
Qed.

(** X11.  A product that [save()] has written is flagged out of stock
    exactly when its stock is 0, and the stock of a product with variants
    is the sum of the stocks of its variants. *)
Theorem product_save_flags (env : Env) (p : Product.t) (w w' : Store.World) :
  ProductModel.save env p w = (Store.Ok tt, w') ->
  exists p', Store.products w' !! Product._id p = Some p'
    /\ Product.isOutOfStock p' = (Product.stock p' =? 0)%Z
    /\ Product.stock p'
       = (if Product.hasVariants p then Product.totalStock (Product.variants p)
          else Product.stock p)
    /\ Product.variants p' = Product.variants p.
Proof.
  rewrite product_save_run. destruct (Product.skuHook p); [discriminate|].
  destruct (productSaveRejected _ _); [discriminate|]. intros [= <-].
  exists (Product.stockHook p). split.
  { simpl. rewrite stockHook_id. apply lookup_insert_eq. }
  unfold Product.stockHook. by destruct (Product.hasVariants p).
Qed.

Lemma product_save_flags_witness :
  exists w' p',
    ProductModel.save Sample.env0 (Product.destock 2 (Some "SHIRT-S") Sample.shirt)
      Sample.w0 = (Store.Ok tt, w')
    /\ Store.products w' !! "p3" = Some p'
    /\ Product.stock p' = 0%Z
    /\ Product.isOutOfStock p' = true.
Proof.
  destruct (product_save_flags Sample.env0
              (Product.destock 2 (Some "SHIRT-S") Sample.shirt) Sample.w0 _ eq_refl)
    as (p' & Hl & Hout & Hst & _).
  eexists _, p'. split; [reflexivity|]. split; [exact Hl|].
  assert (H0 : Product.stock p' = 0%Z) by (rewrite Hst; reflexivity).
  split; [exact H0|]. rewrite Hout, H0. reflexivity.
Defined.

(** ** Status updates and the order endpoints *)

Lemma incrementSold_loop (l : list Order.Item) w :
  exists w2,
    Store.forEach
      (fun item => ProductModel.incrementSold (Order.product item) (Order.quantity item))
      l w = (Store.Ok tt, w2)
    /\ Store.orders w2 = Store.orders w.
Proof.
  revert w. induction l as [|i l IH]; intros w; simpl; [by eexists|].
  unfold Store.bind at 1. unfold ProductModel.incrementSold at 1.
  match goal with |- context [Store.forEach ?b l ?w1] => destruct (IH w1) as (w2 & -> & Ho) end.
  by exists w2.
Qed.

(** X12.  [updateStatus] on a stored order sets the status and, for
    'delivered', the delivery date; the status history gains the entry the
    method pushes and, when the status changed, a second entry from the
    pre-save hook. *)
Theorem updateStatus_history (env : Env) (newStatus : Order.Status) (note : string)
    (o o' : Order.t) (w w' : Store.World) :
  Store.orders w !! Order._id o = Some o ->
  OrderModel.updateStatus env newStatus note o w = (Store.Ok o', w') ->
  Order.orderStatus o' = newStatus
  /\ Order.deliveredAt o'
     = (if Order.status_eqb newStatus Order.delivered then Some (now env)
        else Order.deliveredAt o)
  /\ Order.statusHistory o'
     = Order.statusHistory o
       ++ [{| Order.h_status := newStatus; Order.h_updatedAt := now env;
              Order.h_note := Some note |}]
       ++ (if Order.status_eqb (Order.orderStatus o) newStatus then []
           else [{| Order.h_status := newStatus; Order.h_updatedAt := now env;
                    Order.h_note := None |}])
  /\ Store.orders w' !! Order._id o = Some o'.
Proof.
  intros Ho. unfold OrderModel.updateStatus. cbv zeta. unfold Store.bind at 1.
  assert (Hloop : exists w2,
    (if Order.status_eqb newStatus Order.delivered
     then Store.forEach
            (fun item =>
               ProductModel.incrementSold (Order.product item) (Order.quantity item))
            (Order.items
               (Order.set_status o newStatus
                  (if Order.status_eqb newStatus Order.delivered
                   then Some (now env) else Order.deliveredAt o)))
     else Store.ret tt) w = (Store.Ok tt, w2)
    /\ Store.orders w2 = Store.orders w).
  { destruct (Order.status_eqb newStatus Order.delivered);
      [apply incrementSold_loop|by eexists]. }
  destruct Hloop as (w2 & -> & Hw2).
  rewrite save_run. destruct (orderSaveRejected env); [discriminate|].
  intros [= <- <-].
  unfold Effects.savedOrder, OrderModel.appendHistory, OrderModel.isModifiedStatus.
  match goal with
  | |- context [OrderModel.assignOrderId env w2 ?x] =>
      destruct (assignOrderId_fields env w2 x) as (A1 & _ & _ & _ & _ & _ & A7 & _ & A9);
      assert (Ad : Order.deliveredAt (OrderModel.assignOrderId env w2 x)
                   = Order.deliveredAt x)
        by (unfold OrderModel.assignOrderId; by destruct (negb _));
      set (a := OrderModel.assignOrderId env w2 x) in *
  end.
  simpl in A1, A7, A9, Ad. rewrite A1, Hw2, Ho, A7.
  destruct (Order.status_eqb (Order.orderStatus o) newStatus) eqn:E; cbn [negb].
  - rewrite A1, Ho.
    split; [done|]. split; [done|]. split; [by rewrite A9, app_nil_r|].
    simpl. rewrite A1. apply lookup_insert_eq.
  - cbn [Order._id Order.set_statusHistory]. rewrite A1, Ho.
    split; [simpl; done|]. split; [simpl; done|].
    split; [simpl; by rewrite A9, <- app_assoc|].
    simpl. rewrite A1. apply lookup_insert_eq.
Qed.

Lemma updateStatus_history_witness :
  exists o' w',
    OrderModel.updateStatus Sample.env0 Order.shipped "handed over" Sample.o1 Sample.w0
    = (Store.Ok o', w')
    /\ Order.orderStatus o' = Order.shipped
    /\ length (Order.statusHistory o') = 2%nat.
Proof.
  eexists _, _. split; [vm_compute; reflexivity|].
  match goal with
  | |- Order.orderStatus ?x = _ /\ _ =>
      destruct (updateStatus_history Sample.env0 Order.shipped "handed over"
                  Sample.o1 x Sample.w0
                  (Effects.withOrder x Sample.w0)
                  ltac:(vm_compute; reflexivity) ltac:(vm_compute; reflexivity))
        as (H1 & _ & H3 & _)
  end.
  split; [exact H1|]. rewrite H3. reflexivity.
Defined.



Lemma upperChar_idempotent ch : Js.upperChar (Js.upperChar ch) = Js.upperChar ch.
Proof. destruct ch as [[] [] [] [] [] [] [] []]; reflexivity. Qed.

Lemma toUpperCase_idempotent s : Js.toUpperCase (Js.toUpperCase s) = Js.toUpperCase s.
Proof. induction s as [|ch s IH]; simpl; [done|]. by rewrite upperChar_idempotent, IH. Qed.

(** X14.  [findValidCoupon] looks the code up in upper case: a code and its
    upper-case form find the same coupon. *)
Theorem findValidCoupon_case_insensitive (env : Env) (code : string)
    (w : Store.World) :
  CouponModel.findValidCoupon env (Js.toUpperCase code) w
  = CouponModel.findValidCoupon env code w.
Proof.
  unfold CouponModel.findValidCoupon. cbv zeta. by rewrite toUpperCase_idempotent.
Qed.

(** X15.  The cancel endpoint answers 400 for an order that is already
    cancelled and changes nothing: no stock is restored a second time. *)
Theorem cancelOrder_already_cancelled (env : Env) (userId id : ObjectId)
    (reason : option string) (w : Store.World) (o : Order.t) :
  Store.orders w !! id = Some o ->
  Order._id o = id ->
  Order.user o = userId ->
  Order.orderStatus o = Order.cancelled ->
  OrderController.cancelOrder env userId id reason w
  = (Store.Ok (Failure 400 (CannotCancel Order.cancelled)), w).
Proof.
  intros Ho Hid Hu Hst.
  unfold OrderController.cancelOrder, Store.catch, Store.bind, OrderModel.findById.
  by rewrite Ho, Hid, String.eqb_refl, Hu, String.eqb_refl, Hst.
Qed.

Lemma cancelOrder_already_cancelled_witness :
  OrderController.cancelOrder Sample.env0 "u1" "o1" (Some "changed my mind")
    Sample.wCancelled
  = (Store.Ok (Failure 400 (CannotCancel Order.cancelled)), Sample.wCancelled).
Proof.
  apply (cancelOrder_already_cancelled Sample.env0 "u1" "o1" (Some "changed my mind")
           Sample.wCancelled
           (Sample.order "o1" Order.cancelled
              [Sample.item "p1" 3 250; Sample.item "p2" 1 500] 1250 40 None));
    reflexivity.
Defined.
